(** * fluxy: a builder for Flux queries

    A shallow embedding of [fluxy/fluxy.py] and the properties of its
    composition and rendering engine.

    Python [str] values are embedded as [string]: a sequence of characters,
    each the Unicode code point of the character, below 256 (so the texts of
    this embedding are the texts in the ASCII and Latin-1 range).  Python
    [int] values are embedded as [Z], Python exceptions as the [Raise] case of
    [result].  The file is organised as the source is: text helpers,
    pipes, generic piped functions, clauses, stages, constructors. *)

From Stdlib Require Import ZArith Ascii String List DecimalString.
From stdpp Require Import base option list strings gmap fin_maps.
Import ListNotations.

Local Open Scope string_scope.
Local Open Scope Z_scope.

(** ** Outcomes of a Python call *)

(** A call either returns a value or raises an exception, of which the message
    is kept. *)
Inductive result (A : Type) : Type :=
  | Return (a : A)
  | Raise (msg : string).
Arguments Return {A} a.
Arguments Raise {A} msg.

#[global] Instance result_ret : MRet result := fun A a => Return a.
#[global] Instance result_bind : MBind result := fun A B k r =>
  match r with
  | Return a => k a
  | Raise msg => Raise msg
  end.

#[global] Instance result_fmap : FMap result := fun A B f r =>
  match r with
  | Return a => Return (f a)
  | Raise msg => Raise msg
  end.

(** ** Text helpers *)

Module Py.

(** The characters the source's templates need and a Rocq string literal
    does not spell directly. *)
Definition dquote : string := String (ascii_of_nat 34) EmptyString.
Definition newline : string := String (ascii_of_nat 10) EmptyString.

(** [str(n)] for an [int]. *)
Definition str_int (n : Z) : string := NilZero.string_of_int (Z.to_int n).

(** [sep.join(parts)]. *)
Fixpoint join (sep : string) (parts : list string) : string :=
  match parts with
  | [] => ""
  | [x] => x
  | x :: rest => x +:+ sep +:+ join sep rest
  end.

(** [val.split(sep)] for a one-character separator: the pieces between the
    occurrences of [sep], empty pieces included; never the empty list. *)
Fixpoint split (sep : ascii) (val : string) : list string :=
  match val with
  | EmptyString => [""]
  | String c rest =>
      if Ascii.eqb c sep then "" :: split sep rest
      else match split sep rest with
           | [] => [String c ""]
           | piece :: pieces => String c piece :: pieces
           end
  end.

(** Case mapping of the code points below 256.  The upper-case letters are
    A..Z and the letters 192..222 but the sign 215; [str.lower()] moves each
    32 up.  The letters with a capital below 256 are a..z and 224..254 but
    the sign 247, each 32 above its capital; the capital of 223 (sharp s) is
    the two letters [Ss].  Two letters, 181 (micro) and 255, have their
    capital above 255: texts where [capitalize] meets one of them as first
    character are outside this embedding, which leaves the letter as it is. *)
Definition is_upper (c : ascii) : bool :=
  let n := nat_of_ascii c in
  ((65 <=? n)%nat && (n <=? 90)%nat) ||
  ((192 <=? n)%nat && (n <=? 222)%nat && negb (n =? 215)%nat).
Definition is_lower (c : ascii) : bool :=
  let n := nat_of_ascii c in
  ((97 <=? n)%nat && (n <=? 122)%nat) ||
  ((224 <=? n)%nat && (n <=? 254)%nat && negb (n =? 247)%nat).
Definition lower_char (c : ascii) : ascii :=
  if is_upper c then ascii_of_nat (nat_of_ascii c + 32) else c.
Definition upper_char (c : ascii) : ascii :=
  if is_lower c then ascii_of_nat (nat_of_ascii c - 32) else c.

(** The character as the first of a capitalized text. *)
Definition title (c : ascii) : string :=
  if (nat_of_ascii c =? 223)%nat then "Ss" else String (upper_char c) EmptyString.

Fixpoint lower (s : string) : string :=
  match s with
  | EmptyString => EmptyString
  | String c rest => String (lower_char c) (lower rest)
  end.

(** [s.capitalize()]: first character upper-cased, the rest lower-cased. *)
Definition capitalize (s : string) : string :=
  match s with
  | EmptyString => EmptyString
  | String c rest => title c +:+ lower rest
  end.

(** [s[0:1].lower() + s[1:]]. *)
Definition lower_first (s : string) : string :=
  match s with
  | EmptyString => EmptyString
  | String c rest => String (lower_char c) rest
  end.

(** The characters [str.strip()] removes, among the code points below 256:
    tab, line feed, vertical tab, form feed, carriage return, the four
    separators 28..31, the space, the next-line control 133 and the
    no-break space 160. *)
Definition is_space (c : ascii) : bool :=
  let n := nat_of_ascii c in
  ((9 <=? n)%nat && (n <=? 13)%nat) || ((28 <=? n)%nat && (n <=? 32)%nat) ||
  (n =? 133)%nat || (n =? 160)%nat.

Fixpoint lstrip (s : string) : string :=
  match s with
  | EmptyString => EmptyString
  | String c rest => if is_space c then lstrip rest else s
  end.

Fixpoint rstrip (s : string) : string :=
  match s with
  | EmptyString => EmptyString
  | String c rest =>
      match rstrip rest with
      | EmptyString => if is_space c then EmptyString else String c EmptyString
      | kept => String c kept
      end
  end.

Definition strip (s : string) : string := rstrip (lstrip s).

(** [str(n).zfill(width)], for the zero-padded fields of a timestamp. *)
Definition zfill (width : nat) (s : string) : string :=
  String.concat "" (repeat "0" (width - String.length s)%nat) +:+ s.

(** [repr(s)] of a [str].  The quote is the single one, unless the text holds
    a single quote and no double one; the quote and the backslash are
    escaped with a backslash, tab, line feed and carriage return are written
    [\t], [\n], [\r], and the other characters that are not printable (the
    controls below 32, 127, 128..160 and the soft hyphen 173) are written
    [\x] and two hexadecimal digits. *)
Fixpoint contains (c : ascii) (s : string) : bool :=
  match s with
  | EmptyString => false
  | String d rest => Ascii.eqb d c || contains c rest
  end.

Definition hex_digit (n : nat) : ascii :=
  if (n <? 10)%nat then ascii_of_nat (48 + n) else ascii_of_nat (87 + n).

Definition backslash : ascii := ascii_of_nat 92.
Definition squote : ascii := ascii_of_nat 39.

Definition hex_escape (n : nat) : string :=
  String backslash
    (String "x" (String (hex_digit (n / 16)) (String (hex_digit (n mod 16)) ""))).

Definition repr_char (quote c : ascii) : string :=
  let n := nat_of_ascii c in
  if Ascii.eqb c quote || Ascii.eqb c backslash then String backslash (String c "")
  else if (n =? 9)%nat then String backslash "t"
  else if (n =? 10)%nat then String backslash "n"
  else if (n =? 13)%nat then String backslash "r"
  else if (n <? 32)%nat || (n =? 127)%nat then hex_escape n
  else if (n <? 127)%nat then String c ""
  else if ((128 <=? n)%nat && (n <=? 160)%nat) || (n =? 173)%nat then hex_escape n
  else String c "".

Fixpoint repr_chars (quote : ascii) (s : string) : string :=
  match s with
  | EmptyString => EmptyString
  | String c rest => repr_char quote c +:+ repr_chars quote rest
  end.

Definition repr_str (s : string) : string :=
  let quote :=
    if contains squote s && negb (contains (ascii_of_nat 34) s)
    then ascii_of_nat 34 else squote in
  String quote (repr_chars quote s +:+ String quote "").

(** [str(b)] of a [bool]. *)
Definition str_bool (b : bool) : string := if b then "True" else "False".

End Py.

(** [dedent]: every line of the text stripped of its leading and trailing
    white space. *)
Definition dedent (val : string) : string :=
  let lines := Py.split (ascii_of_nat 10) val in
  Py.join Py.newline (map Py.strip lines).

(** ** Values handed to the builder *)

(** [datetime.timedelta], by its three normalised attributes. *)
Record timedelta : Type := mk_timedelta {
  days : Z;
  seconds : Z;
  microseconds : Z
}.

Module Timedelta.

Definition us_per_second : Z := 1000000.
Definition us_per_day : Z := 86400 * us_per_second.

(** The constructor's normalisation: [0 <= seconds < 86400] and
    [0 <= microseconds < 1000000], the sign carried by [days]. *)
Definition of_microseconds (total : Z) : timedelta :=
  {| days := total / us_per_day;
     seconds := (total mod us_per_day) / us_per_second;
     microseconds := total mod us_per_second |}.

Definition total_microseconds (td : timedelta) : Z :=
  (days td * 86400 + seconds td) * us_per_second + microseconds td.

(** [timedelta(days=d, seconds=s, microseconds=us, minutes=m, hours=h)]. *)
Definition make (d s us m h : Z) : timedelta :=
  of_microseconds ((((d * 24 + h) * 60 + m) * 60 + s) * us_per_second + us).

(** [str(td)]: hours, minutes and seconds of the [seconds] attribute, after
    the days when they are not zero, before the microseconds when they are
    not zero. *)
Definition str (td : timedelta) : string :=
  let hh := seconds td / 3600 in
  let mm := (seconds td / 60) mod 60 in
  let ss := seconds td mod 60 in
  (if days td =? 0 then ""
   else Py.str_int (days td) +:+ " day" +:+
        (if Z.abs (days td) =? 1 then "" else "s") +:+ ", ") +:+
  Py.str_int hh +:+ ":" +:+ Py.zfill 2 (Py.str_int mm) +:+ ":" +:+
  Py.zfill 2 (Py.str_int ss) +:+
  (if microseconds td =? 0 then ""
   else "." +:+ Py.zfill 6 (Py.str_int (microseconds td))).

End Timedelta.

(** [datetime.datetime]; [tzinfo] is the fixed offset from UTC of an aware
    timestamp ([timezone.utc] is the zero offset) and [None] for a naive one. *)
Record datetime : Type := mk_datetime {
  year : Z;
  month : Z;
  day : Z;
  hour : Z;
  minute : Z;
  second : Z;
  microsecond : Z;
  tzinfo : option timedelta
}.

Module Datetime.

Definition two (n : Z) : string := Py.zfill 2 (Py.str_int n).

(** The UTC offset as [isoformat] prints it: sign, hours and minutes, then
    seconds and microseconds when they are not zero. *)
Definition format_offset (off : option timedelta) : string :=
  match off with
  | None => ""
  | Some off =>
      let total := Timedelta.total_microseconds off in
      let sign := if days off <? 0 then "-" else "+" in
      let total := if days off <? 0 then - total else total in
      let hh := total / (3600 * Timedelta.us_per_second) in
      let rest := total mod (3600 * Timedelta.us_per_second) in
      let mm := rest / (60 * Timedelta.us_per_second) in
      let ss := rest mod (60 * Timedelta.us_per_second) in
      sign +:+ two hh +:+ ":" +:+ two mm +:+
      (if ss =? 0 then ""
       else ":" +:+ two (ss / Timedelta.us_per_second) +:+
            (if ss mod Timedelta.us_per_second =? 0 then ""
             else "." +:+ Py.zfill 6 (Py.str_int (ss mod Timedelta.us_per_second))))
  end.

(** [value.isoformat()] of the standard library. *)
Definition isoformat (value : datetime) : string :=
  Py.zfill 4 (Py.str_int (year value)) +:+ "-" +:+ two (month value) +:+ "-" +:+
  two (day value) +:+ "T" +:+ two (hour value) +:+ ":" +:+ two (minute value) +:+
  ":" +:+ two (second value) +:+
  (if microsecond value =? 0 then ""
   else "." +:+ Py.zfill 6 (Py.str_int (microsecond value))) +:+
  format_offset (tzinfo value).

(** [str(value)]: [isoformat] with a space between the date and the time. *)
Definition str (value : datetime) : string :=
  Py.zfill 4 (Py.str_int (year value)) +:+ "-" +:+ two (month value) +:+ "-" +:+
  two (day value) +:+ " " +:+ two (hour value) +:+ ":" +:+ two (minute value) +:+
  ":" +:+ two (second value) +:+
  (if microsecond value =? 0 then ""
   else "." +:+ Py.zfill 6 (Py.str_int (microsecond value))) +:+
  format_offset (tzinfo value).

(** [timezone.utc]. *)
Definition utc : option timedelta := Some (mk_timedelta 0 0 0).

End Datetime.

(** An item of a list.  A list can hold anything; the embedding tells apart
    the items whose texts follow from their value, and keeps any other object
    by the name of its class and the texts [str] and [repr] give for it. *)
Inductive pyitem : Type :=
  | IStr (s : string)
  | IInt (n : Z)
  | IBool (b : bool)
  | INone
  | IOther (class_name text repr : string).

(** The text an f-string gives for an item, [format(item, '')]. *)
Definition py_format_item (item : pyitem) : string :=
  match item with
  | IStr s => s
  | IInt n => Py.str_int n
  | IBool b => Py.str_bool b
  | INone => "None"
  | IOther _ text _ => text
  end.

Definition py_repr_item (item : pyitem) : string :=
  match item with
  | IStr s => Py.repr_str s
  | IInt n => Py.str_int n
  | IBool b => Py.str_bool b
  | INone => "None"
  | IOther _ _ repr => repr
  end.

(** The run-time values a stage field, or an argument of [range], can hold.
    The match statements of the source look at the class of the value, so the
    embedding keeps one constructor per class they tell apart: [VList] is a
    list of any items, [VEnum] is a member of an [Enum], by the names of its
    class and of the member and by its [.value]; [VInt], [VNone] and
    [VObject] are values of classes none of the cases name, [VObject] an
    object of any such class, with the text [str] gives for it. *)
Inductive pyval : Type :=
  | VStr (s : string)
  | VBool (b : bool)
  | VList (items : list pyitem)
  | VTimedelta (td : timedelta)
  | VDatetime (dt : datetime)
  | VEnum (class_name name value : string)
  | VInt (n : Z)
  | VNone
  | VObject (class_name text : string).

(** The text an f-string gives for a value, [format(value, '')]: for a list
    the [repr] of its items between brackets, for a member of an [Enum] the
    names of the class and of the member. *)
Definition py_format (value : pyval) : string :=
  match value with
  | VStr s => s
  | VBool b => Py.str_bool b
  | VList items => "[" +:+ Py.join ", " (map py_repr_item items) +:+ "]"
  | VTimedelta td => Timedelta.str td
  | VDatetime dt => Datetime.str dt
  | VEnum class_name name _ => class_name +:+ "." +:+ name
  | VInt n => Py.str_int n
  | VNone => "None"
  | VObject _ text => text
  end.

(** The classes the cases of [PipedFunction._to_flux] name. *)
Definition supported (value : pyval) : bool :=
  match value with
  | VStr _ | VBool _ | VList _ | VTimedelta _ | VDatetime _ | VEnum _ _ _ => true
  | VInt _ | VNone | VObject _ _ => false
  end.

Definition bool_to_flux (val : bool) : string :=
  if val then "true" else "false".

(** ** PipedFunction: the generic stage *)

(** A dataclass deriving from [PipedFunction]: its class name, its [function]
    property and its declared fields with their values, in declaration order
    (what [fields(self.__class__)] and [getattr] give). *)
Class PipedFunction (T : Type) : Type := {
  __name__ : string;
  function : T -> string;
  dataclass_fields : T -> list (string * pyval)
}.

(** The [function] property as [PipedFunction] defines it. *)
Definition PipedFunction_function (name : string) : string :=
  Py.lower_first name.

Definition _snakecase_to_camelcase (val : string) : string :=
  let upper_camel_case :=
    Py.join "" (map Py.capitalize (Py.split "_"%char val)) in
  Py.lower_first upper_camel_case.

Definition _list_to_flux (list : list pyitem) : string :=
  "[" +:+
  Py.join ", "
    (map (fun key => Py.dquote +:+ py_format_item key +:+ Py.dquote) list) +:+
  "]".

Definition _part (value : Z) (unit : string) : string :=
  if negb (value =? 0) then Py.str_int value +:+ unit else "".

Definition _timedelta_to_flux (every : timedelta) : string :=
  Py.join ""
    [ _part (days every) "d";
      _part (seconds every) "s";
      _part (microseconds every) "us" ].

(** [PipedFunction._to_flux].  The match of the source has no default case:
    for a value of any other class the function falls off its end and
    returns Python's [None], here [Return None]. *)
Definition _to_flux (value : pyval) : result (option string) :=
  match value with
  | VStr s => Return (Some (Py.dquote +:+ s +:+ Py.dquote))
  | VBool b => Return (Some (bool_to_flux b))
  | VList l => Return (Some (_list_to_flux l))
  | VTimedelta td => Return (Some (_timedelta_to_flux td))
  | VDatetime dt => Return (Some (Datetime.isoformat dt))
  | VEnum _ _ v => Return (Some v)
  | VInt _ | VNone | VObject _ _ => Return None
  end.

(** How an f-string shows what [_to_flux] returned. *)
Definition format_value (v : option string) : string :=
  match v with
  | Some s => s
  | None => "None"
  end.

Definition PipedFunction_to_flux {T : Type} `{PipedFunction T} (self : T)
  : result string :=
  arguments ← mapM (fun field : string * pyval =>
                      v ← _to_flux (snd field);
                      mret (_snakecase_to_camelcase (fst field) +:+ ": " +:+
                            format_value v))
                   (dataclass_fields self);
  mret (dedent (function self +:+ "(" +:+ Py.join ", " arguments +:+ ")")).

Record Range : Type := mk_Range {
  Range_start : pyval;
  Range_stop : pyval
}.

#[global] Instance Range_PipedFunction : PipedFunction Range := {|
  __name__ := "Range";
  function := fun _ => PipedFunction_function "Range";
  dataclass_fields := fun self =>
    [("start", Range_start self); ("stop", Range_stop self)]
|}.

Record RangeOffset : Type := mk_RangeOffset {
  RangeOffset_start : pyval
}.

(** [RangeOffset] overrides the [function] property. *)
#[global] Instance RangeOffset_PipedFunction : PipedFunction RangeOffset := {|
  __name__ := "RangeOffset";
  function := fun _ => "range";
  dataclass_fields := fun self => [("start", RangeOffset_start self)]
|}.

(** ** Expressions and clauses *)

Record LiteralStringExpression : Type := mk_LiteralStringExpression {
  LiteralStringExpression_value : string
}.

Definition LiteralStringExpression_to_flux (self : LiteralStringExpression)
  : string :=
  Py.dquote +:+ LiteralStringExpression_value self +:+ Py.dquote.

Definition Expression : Type := LiteralStringExpression.

(** The message ends with the text the f-string gives for the value. *)
Definition parse_expression (value : pyval) : result Expression :=
  match value with
  | VStr s => Return (mk_LiteralStringExpression s)
  | _ => Raise ("didn't recognize expression " +:+ py_format value)
  end.

Inductive BinaryOperation : Type := OR | AND.

Definition BinaryOperation_value (op : BinaryOperation) : string :=
  match op with
  | OR => "or"
  | AND => "and"
  end.

Inductive ComparisonOperation : Type := EQ | NE.

Definition ComparisonOperation_value (op : ComparisonOperation) : string :=
  match op with
  | EQ => "=="
  | NE => "!="
  end.

(** The three dataclasses deriving from [Clause]. *)
Inductive Clause : Type :=
  | LiteralClause (literal : bool)
  | BinaryClause (operation : BinaryOperation) (left right : Clause)
  | ComparisonClause (operation : ComparisonOperation) (name : string)
      (expression : Expression).

(** [Clausable = Clause | bool]. *)
Inductive Clausable : Type :=
  | OfBool (b : bool)
  | OfClause (c : Clause).

Definition Clause_parse (val : Clausable) : Clause :=
  match val with
  | OfBool b => LiteralClause b
  | OfClause c => c
  end.

(** The [precedence] property of each class. *)
Definition precedence (self : Clause) : Z :=
  match self with
  | LiteralClause _ => 0
  | BinaryClause AND _ _ => 9
  | BinaryClause OR _ _ => 10
  | ComparisonClause _ _ _ => 7
  end.

Definition should_parenthesize (self other : Clause) : bool :=
  precedence self <? precedence other.

(** [to_flux] of the three classes.  [BinaryClause.to_flux] goes through
    [ensure_precedence] of the base class, which calls [to_flux] of the
    operand again: the two are one recursion, [ensure_precedence] is given
    below and [BinaryClause_to_flux] states the method as the source has it. *)
Fixpoint Clause_to_flux (self : Clause) : string :=
  match self with
  | LiteralClause literal => bool_to_flux literal
  | BinaryClause operation l r =>
      (if should_parenthesize self l
       then "(" +:+ Clause_to_flux l +:+ ")"
       else Clause_to_flux l) +:+
      " " +:+ BinaryOperation_value operation +:+ " " +:+
      (if should_parenthesize self r
       then "(" +:+ Clause_to_flux r +:+ ")"
       else Clause_to_flux r)
  | ComparisonClause operation name expression =>
      "r[" +:+ Py.dquote +:+ name +:+ Py.dquote +:+ "] " +:+
      ComparisonOperation_value operation +:+ " " +:+
      LiteralStringExpression_to_flux expression
  end.

Definition ensure_precedence (self other : Clause) : string :=
  if should_parenthesize self other
  then "(" +:+ Clause_to_flux other +:+ ")"
  else Clause_to_flux other.

(** [self | other] and [self & other]. *)
Definition Clause_or (self : Clause) (other : Clausable) : Clause :=
  BinaryClause OR self (Clause_parse other).

Definition Clause_and (self : Clause) (other : Clausable) : Clause :=
  BinaryClause AND self (Clause_parse other).

Record Field : Type := mk_Field {
  Field_name : string
}.

(** [field == other] and [field != other]. *)
Definition Field_eq (self : Field) (other : pyval) : result Clause :=
  expression ← parse_expression other;
  mret (ComparisonClause EQ (Field_name self) expression).

Definition Field_ne (self : Field) (other : pyval) : result Clause :=
  expression ← parse_expression other;
  mret (ComparisonClause NE (Field_name self) expression).

(** [Row] has no attribute of its own. *)
Inductive Row : Type := mk_Row.

Definition Row_getattr (self : Row) (name : string) : Field := mk_Field name.
Definition Row_getitem (self : Row) (name : string) : Field := mk_Field name.

(** ** The stages *)

Record From : Type := mk_From {
  From_bucket : string
}.

Definition From_to_flux (self : From) : string :=
  "from(bucket: " +:+ Py.dquote +:+ From_bucket self +:+ Py.dquote +:+ ")".

Record Filter : Type := mk_Filter {
  Filter_clause : Clause
}.

Definition Filter_to_flux (self : Filter) : string :=
  dedent ("filter(fn: (r) => " +:+ Clause_to_flux (Filter_clause self) +:+ ")").

Record Pivot : Type := mk_Pivot {
  Pivot_row_key : pyval;
  Pivot_column_key : pyval;
  Pivot_value_column : pyval
}.

#[global] Instance Pivot_PipedFunction : PipedFunction Pivot := {|
  __name__ := "Pivot";
  function := fun _ => PipedFunction_function "Pivot";
  dataclass_fields := fun self =>
    [("row_key", Pivot_row_key self);
     ("column_key", Pivot_column_key self);
     ("value_column", Pivot_value_column self)]
|}.

Record AggregateWindow : Type := mk_AggregateWindow {
  AggregateWindow_every : pyval;
  AggregateWindow_fn : pyval;
  AggregateWindow_create_empty : pyval
}.

#[global] Instance AggregateWindow_PipedFunction : PipedFunction AggregateWindow := {|
  __name__ := "AggregateWindow";
  function := fun _ => PipedFunction_function "AggregateWindow";
  dataclass_fields := fun self =>
    [("every", AggregateWindow_every self);
     ("fn", AggregateWindow_fn self);
     ("create_empty", AggregateWindow_create_empty self)]
|}.

Record Drop : Type := mk_Drop {
  Drop_columns : pyval
}.

#[global] Instance Drop_PipedFunction : PipedFunction Drop := {|
  __name__ := "Drop";
  function := fun _ => PipedFunction_function "Drop";
  dataclass_fields := fun self => [("columns", Drop_columns self)]
|}.

Record Keep : Type := mk_Keep {
  Keep_columns : pyval
}.

#[global] Instance Keep_PipedFunction : PipedFunction Keep := {|
  __name__ := "Keep";
  function := fun _ => PipedFunction_function "Keep";
  dataclass_fields := fun self => [("columns", Keep_columns self)]
|}.

Record Map : Type := mk_Map {
  Map_fn : string
}.

Definition Map_to_flux (self : Map) : string :=
  "map(fn: " +:+ Map_fn self +:+ ")".

Record Sum : Type := mk_Sum {
  Sum_column : string
}.

Definition Sum_to_flux (self : Sum) : string :=
  "sum(column: " +:+ Py.dquote +:+ Sum_column self +:+ Py.dquote +:+ ")".

Record Mean : Type := mk_Mean {
  Mean_column : string
}.

Definition Mean_to_flux (self : Mean) : string :=
  "mean(column: " +:+ Py.dquote +:+ Mean_column self +:+ Py.dquote +:+ ")".

Inductive Last : Type := mk_Last.

Definition Last_to_flux (self : Last) : string := "last()".

Record Limit : Type := mk_Limit {
  Limit_n : Z;
  Limit_offset : Z
}.

Definition Limit_to_flux (self : Limit) : string :=
  "limit(n: " +:+ Py.str_int (Limit_n self) +:+ ", offset: " +:+
  Py.str_int (Limit_offset self) +:+ ")".

Inductive Order : Type := DESC | ASC.

Definition Order_eqb (a b : Order) : bool :=
  match a, b with
  | DESC, DESC | ASC, ASC => true
  | _, _ => false
  end.

Record Sort : Type := mk_Sort {
  Sort_columns : list string;
  Sort_sort_order : Order
}.

Definition Sort_to_flux (self : Sort) : string :=
  let columns_string :=
    Py.join (Py.dquote +:+ ", " +:+ Py.dquote) (Sort_columns self) in
  "sort(columns: [" +:+ Py.dquote +:+ columns_string +:+ Py.dquote +:+ "], desc: " +:+
  (if Order_eqb (Sort_sort_order self) DESC then "true" else "false") +:+ ")".

Record Literal : Type := mk_Literal {
  Literal_expression : string
}.

Definition Literal_to_flux (self : Literal) : string := Literal_expression self.

Inductive WindowOperation : Type := MEAN | LAST | SUM.

Definition WindowOperation_value (op : WindowOperation) : string :=
  match op with
  | MEAN => "mean"
  | LAST => "last"
  | SUM => "sum"
  end.

Definition WindowOperation_name (op : WindowOperation) : string :=
  match op with
  | MEAN => "MEAN"
  | LAST => "LAST"
  | SUM => "SUM"
  end.

(** The member as a value. *)
Definition WindowOperation_member (op : WindowOperation) : pyval :=
  VEnum "WindowOperation" (WindowOperation_name op) (WindowOperation_value op).

(** ** Operations and pipes *)

(** [Operation] is the protocol of the objects with a [to_flux] method; the
    embedding lists the classes of the module whose objects are stages of a
    pipeline. *)
Inductive Operation : Type :=
  | OpFrom (o : From)
  | OpRange (o : Range)
  | OpRangeOffset (o : RangeOffset)
  | OpFilter (o : Filter)
  | OpPivot (o : Pivot)
  | OpAggregateWindow (o : AggregateWindow)
  | OpDrop (o : Drop)
  | OpKeep (o : Keep)
  | OpMap (o : Map)
  | OpSum (o : Sum)
  | OpMean (o : Mean)
  | OpLast (o : Last)
  | OpLimit (o : Limit)
  | OpSort (o : Sort)
  | OpLiteral (o : Literal).

(** [op.to_flux()], dispatched on the class of [op]. *)
Definition Operation_to_flux (op : Operation) : result string :=
  match op with
  | OpFrom o => Return (From_to_flux o)
  | OpRange o => PipedFunction_to_flux o
  | OpRangeOffset o => PipedFunction_to_flux o
  | OpFilter o => Return (Filter_to_flux o)
  | OpPivot o => PipedFunction_to_flux o
  | OpAggregateWindow o => PipedFunction_to_flux o
  | OpDrop o => PipedFunction_to_flux o
  | OpKeep o => PipedFunction_to_flux o
  | OpMap o => Return (Map_to_flux o)
  | OpSum o => Return (Sum_to_flux o)
  | OpMean o => Return (Mean_to_flux o)
  | OpLast o => Return (Last_to_flux o)
  | OpLimit o => Return (Limit_to_flux o)
  | OpSort o => Return (Sort_to_flux o)
  | OpLiteral o => Return (Literal_to_flux o)
  end.

(** The [Range | RangeOffset] of a pipe. *)
Inductive RangeLike : Type :=
  | IsRange (r : Range)
  | IsRangeOffset (r : RangeOffset).

Definition RangeLike_operation (r : RangeLike) : Operation :=
  match r with
  | IsRange r => OpRange r
  | IsRangeOffset r => OpRangeOffset r
  end.

Record PartialPipe : Type := mk_PartialPipe {
  PartialPipe_initial : From
}.

Record Pipe : Type := mk_Pipe {
  Pipe_initial : From;
  Pipe_range : RangeLike;
  Pipe_operations : list Operation
}.

(** The separator of [Pipe.to_flux]: a line feed, then the pipe-forward
    operator and a space. *)
Definition pipe_separator : string := Py.newline +:+ "|> ".

Definition Pipe_to_flux (self : Pipe) : result string :=
  fluxes ← mapM Operation_to_flux
              (OpFrom (Pipe_initial self) ::
               RangeLike_operation (Pipe_range self) ::
               Pipe_operations self);
  mret (Py.join pipe_separator fluxes).

(** What [pipe] can be given first: an object of one of the three classes its
    cases name, or of any other class. *)
Inductive PipeFirst : Type :=
  | FirstFrom (o : From)
  | FirstPartialPipe (o : PartialPipe)
  | FirstPipe (o : Pipe)
  | FirstOther (o : pyval).

Inductive PipeResult : Type :=
  | IsPartialPipe (o : PartialPipe)
  | IsPipe (o : Pipe).

(** [pipe(first, second=None, *ops)]; [second] is [None] when the argument is
    left out. *)
Definition pipe (first : PipeFirst) (second : option Operation)
    (ops : list Operation) : result PipeResult :=
  match first, second with
  | FirstFrom from_bucket, None =>
      Return (IsPartialPipe (mk_PartialPipe from_bucket))
  | FirstFrom from_bucket, Some (OpRange range) =>
      Return (IsPipe (mk_Pipe from_bucket (IsRange range) ops))
  | FirstFrom from_bucket, Some (OpRangeOffset range) =>
      Return (IsPipe (mk_Pipe from_bucket (IsRangeOffset range) ops))
  | FirstPartialPipe pipe, None =>
      Return (IsPartialPipe pipe)
  | FirstPartialPipe pipe, Some (OpRange range) =>
      Return (IsPipe (mk_Pipe (PartialPipe_initial pipe) (IsRange range) ops))
  | FirstPartialPipe pipe, Some (OpRangeOffset range) =>
      Return (IsPipe (mk_Pipe (PartialPipe_initial pipe) (IsRangeOffset range) ops))
  | FirstPipe pipe, None =>
      Return (IsPipe pipe)
  | FirstPipe pipe, Some op =>
      Return (IsPipe (mk_Pipe (Pipe_initial pipe) (Pipe_range pipe)
                              (Pipe_operations pipe ++ op :: ops)))
  | _, _ => Raise "invalid types"
  end.

(** [result.to_flux()] on what [pipe] returned; [PartialPipe] has no such
    method. *)
Definition PipeResult_to_flux (self : PipeResult) : result string :=
  match self with
  | IsPipe p => Pipe_to_flux p
  | IsPartialPipe _ => Raise "'PartialPipe' object has no attribute 'to_flux'"
  end.

(** What [pipe] returned, given to [pipe] again. *)
Definition PipeResult_first (self : PipeResult) : PipeFirst :=
  match self with
  | IsPipe p => FirstPipe p
  | IsPartialPipe p => FirstPartialPipe p
  end.

(** ** The constructors *)

Definition from_bucket (bucket : string) : From := mk_From bucket.

(** [range(start, stop=None)]. *)
Definition range (start : pyval) (stop : pyval) : result RangeLike :=
  match start with
  | VTimedelta _ => Return (IsRangeOffset (mk_RangeOffset start))
  | VDatetime _ =>
      match stop with
      | VNone => Raise "invalid types"
      | _ => Return (IsRange (mk_Range start stop))
      end
  | _ => Raise "invalid types"
  end.

Definition FilterCallback : Type := Row -> result Clausable.

Definition filter (callback : FilterCallback) : result Filter :=
  val ← callback mk_Row;
  mret (mk_Filter (Clause_parse val)).

Definition pivot (row_key column_key value_column : pyval) : Pivot :=
  mk_Pivot row_key column_key value_column.

(** [functools.reduce(function, sequence)] with no initial value.  The
    sequence is a generator: each element is computed when the fold reaches
    it, and may raise then. *)
Fixpoint reduce_from {A : Type} (function : A -> A -> A) (value : A)
    (rest : list (result A)) : result A :=
  match rest with
  | [] => Return value
  | element :: rest =>
      element ← element;
      reduce_from function (function value element) rest
  end.

Definition reduce {A : Type} (function : A -> A -> A)
    (sequence : list (result A)) : result A :=
  match sequence with
  | [] => Raise "reduce() of empty iterable with no initial value"
  | first :: rest =>
      value ← first;
      reduce_from function value rest
  end.

(** [conform(value)]; the dict is the list of its items, in insertion
    order. *)
Definition conform (value : list (string * pyval)) (row : Row) : result Clause :=
  reduce (fun acc cur => Clause_and acc (OfClause cur))
         (map (fun item => Field_eq (Row_getitem row (fst item)) (snd item)) value).

(** [any(test, values)]. *)
Definition any {T : Type} (test : T -> FilterCallback) (values : list T)
    (row : Row) : result Clause :=
  reduce (fun acc cur => Clause_or acc (OfClause cur))
         (map (fun value => val ← test value row; mret (Clause_parse val)) values).

Definition aggregate_window (every fn create_empty : pyval) : AggregateWindow :=
  mk_AggregateWindow every fn create_empty.

Definition drop (columns : pyval) : Drop := mk_Drop columns.
Definition keep (columns : pyval) : Keep := mk_Keep columns.
Definition map_ (function : string) : Map := mk_Map function.
Definition sum (column : string) : Sum := mk_Sum column.
Definition last : Last := mk_Last.
Definition mean (column : string) : Mean := mk_Mean column.
Definition limit (n offset : Z) : Limit := mk_Limit n offset.
Definition sort (columns : list string) (sort_order : Order) : Sort :=
  mk_Sort columns sort_order.
Definition literal (expression : string) : Literal := mk_Literal expression.

(** ** [pipe] on the object store

    The dataclasses of the source are mutable objects and [Pipe.operations]
    is a Python list, so whether [pipe] leaves its arguments alone is a
    question about the store.  Here the objects [pipe] handles live in a
    store, addressed by reference; a stage object is kept whole, since [pipe]
    only looks at its class. *)
Module Store.

Definition ref : Type := positive.

Inductive object : Type :=
  | ObjOperation (op : Operation)
  | ObjPartialPipe (initial : ref)
  | ObjPipe (initial range operations : ref)
  | ObjList (items : list ref)
  | ObjOther (v : pyval).

(** Creating an object: a reference not in use, bound to the object. *)
Definition alloc (σ : gmap ref object) (o : object) : ref * gmap ref object :=
  let l := fresh (dom σ) in (l, <[l := o]> σ).

(** [Pipe(initial, range, items)] where [items] is a list display or
    [list(ops)]: the new list object first, then the new pipe. *)
Definition new_Pipe (σ : gmap ref object) (initial range : ref) (items : list ref)
  : result ref * gmap ref object :=
  let '(operations, σ1) := alloc σ (ObjList items) in
  let '(p, σ2) := alloc σ1 (ObjPipe initial range operations) in
  (Return p, σ2).

Definition is_From (o : option object) : bool :=
  match o with
  | Some (ObjOperation (OpFrom _)) => true
  | _ => false
  end.

(** The pattern [Range(_) | RangeOffset(_)]. *)
Definition is_range (o : option object) : bool :=
  match o with
  | Some (ObjOperation (OpRange _)) | Some (ObjOperation (OpRangeOffset _)) => true
  | _ => false
  end.

(** [pipe(first, second=None, *ops)]: the outcome and the store after the
    call.  The cases are those of the source, in its order. *)
Definition pipe (σ : gmap ref object) (first : ref) (second : option ref)
    (ops : list ref) : result ref * gmap ref object :=
  match σ !! first, second with
  | Some (ObjOperation (OpFrom _)), None =>
      let '(p, σ1) := alloc σ (ObjPartialPipe first) in (Return p, σ1)
  | Some (ObjOperation (OpFrom _)), Some range =>
      if is_range (σ !! range) then new_Pipe σ first range ops
      else (Raise "invalid types", σ)
  | Some (ObjPartialPipe initial), None => (Return first, σ)
  | Some (ObjPartialPipe initial), Some range =>
      if is_range (σ !! range) then new_Pipe σ initial range ops
      else (Raise "invalid types", σ)
  | Some (ObjPipe initial range operations), None => (Return first, σ)
  | Some (ObjPipe initial range operations), Some op =>
      match σ !! operations with
      | Some (ObjList items) => new_Pipe σ initial range (items ++ op :: ops)
      | _ => (Raise "object is not iterable", σ)
      end
  | _, _ => (Raise "invalid types", σ)
  end.

(** Reading the store back into the values of the first embedding. *)
Definition load_operation (σ : gmap ref object) (l : ref) : option Operation :=
  match σ !! l with
  | Some (ObjOperation op) => Some op
  | _ => None
  end.

Definition load_From (σ : gmap ref object) (l : ref) : option From :=
  match σ !! l with
  | Some (ObjOperation (OpFrom o)) => Some o
  | _ => None
  end.

Definition load_range (σ : gmap ref object) (l : ref) : option RangeLike :=
  match σ !! l with
  | Some (ObjOperation (OpRange o)) => Some (IsRange o)
  | Some (ObjOperation (OpRangeOffset o)) => Some (IsRangeOffset o)
  | _ => None
  end.

Definition load_list (σ : gmap ref object) (l : ref) : option (list Operation) :=
  match σ !! l with
  | Some (ObjList items) => mapM (load_operation σ) items
  | _ => None
  end.

Definition load_PartialPipe (σ : gmap ref object) (l : ref) : option PartialPipe :=
  match σ !! l with
  | Some (ObjPartialPipe initial) => mk_PartialPipe <$> load_From σ initial
  | _ => None
  end.

Definition load_Pipe (σ : gmap ref object) (l : ref) : option Pipe :=
  match σ !! l with
  | Some (ObjPipe initial range operations) =>
      i ← load_From σ initial;
      r ← load_range σ range;
      ops ← load_list σ operations;
      Some (mk_Pipe i r ops)
  | _ => None
  end.

(** The first argument, when it is of one of the three classes [pipe] is
    declared for. *)
Definition load_first (σ : gmap ref object) (l : ref) : option PipeFirst :=
  match σ !! l with
  | Some (ObjOperation (OpFrom o)) => Some (FirstFrom o)
  | Some (ObjPartialPipe _) => FirstPartialPipe <$> load_PartialPipe σ l
  | Some (ObjPipe _ _ _) => FirstPipe <$> load_Pipe σ l
  | _ => None
  end.

Definition load_result (σ : gmap ref object) (l : ref) : option PipeResult :=
  match σ !! l with
  | Some (ObjPartialPipe _) => IsPartialPipe <$> load_PartialPipe σ l
  | Some (ObjPipe _ _ _) => IsPipe <$> load_Pipe σ l
  | _ => None
  end.

(** The second argument: absent, or a stage. *)
Definition load_second (σ : gmap ref object) (second : option ref)
  : option (option Operation) :=
  match second with
  | None => Some None
  | Some l => Some <$> load_operation σ l
  end.

End Store.

(** A store with a source, a relative range, a [last()] stage, an empty list,
    a pipe over them and a partial pipe. *)
Definition example_store : gmap Store.ref Store.object :=
  <[1%positive := Store.ObjOperation (OpFrom (from_bucket "bucket"))]>
  (<[2%positive := Store.ObjOperation
                     (OpRangeOffset (mk_RangeOffset
                        (VTimedelta (Timedelta.make 0 0 0 1 0))))]>
  (<[3%positive := Store.ObjList []]>
  (<[4%positive := Store.ObjPipe 1%positive 2%positive 3%positive]>
  (<[5%positive := Store.ObjPartialPipe 1%positive]>
  (<[6%positive := Store.ObjOperation (OpLast last)]> ∅))))).

(** ** Reference readings of the rendering rules *)

(** The text of a duration, read off the rule ``the non-zero components, in
    the order days, seconds, microseconds, each as its value followed by its
    unit'': the three components are paired with their units, the zero ones
    are dropped, and the rest is concatenated. *)
Definition duration_components (every : timedelta) : list (Z * string) :=
  [(days every, "d"); (seconds every, "s"); (microseconds every, "us")].

Definition duration_text (every : timedelta) : string :=
  String.concat ""
    (map (fun part : Z * string => Py.str_int (fst part) +:+ snd part)
         (List.filter (fun part : Z * string => negb (fst part =? 0))
                      (duration_components every))).

(** The two classes the cases of [range] name. *)
Definition is_timedelta (value : pyval) : bool :=
  match value with VTimedelta _ => true | _ => false end.

Definition is_datetime (value : pyval) : bool :=
  match value with VDatetime _ => true | _ => false end.

(** What a call returned, for the calls that cannot raise. *)
Definition returned {A : Type} (default : A) (r : result A) : A :=
  match r with
  | Return a => a
  | Raise _ => default
  end.

(** The text of a stage. *)
Definition Operation_text (op : Operation) : string :=
  returned "" (Operation_to_flux op).

(** ** Predicates on texts and values, for the statements below *)

(** The character [c] occurs in [s]. *)
Fixpoint has_char (c : ascii) (s : string) : bool :=
  match s with
  | EmptyString => false
  | String d rest => Ascii.eqb d c || has_char c rest
  end.

(** No character of [s] is an upper-case letter. *)
Fixpoint no_upper (s : string) : bool :=
  match s with
  | EmptyString => true
  | String c rest => negb (Py.is_upper c) && no_upper rest
  end.

(** [s] begins, or ends, with a character [strip] removes. *)
Definition starts_space (s : string) : bool :=
  match s with
  | EmptyString => false
  | String c _ => Py.is_space c
  end.

Fixpoint ends_space (s : string) : bool :=
  match s with
  | EmptyString => false
  | String c EmptyString => Py.is_space c
  | String _ rest => ends_space rest
  end.

(** Every character of [s] is an ASCII character. *)
Fixpoint is_ascii (s : string) : bool :=
  match s with
  | EmptyString => true
  | String c rest => (nat_of_ascii c <? 128)%nat && is_ascii rest
  end.

Definition line_feed : ascii := ascii_of_nat 10.
Definition underscore : ascii := "_"%char.

Definition is_str (value : pyval) : bool :=
  match value with VStr _ => true | _ => false end.

(** The text of a [str]; the empty text for the values of other classes. *)
Definition str_of (value : pyval) : string :=
  match value with VStr s => s | _ => "" end.

(** A string in double quotes. *)
Definition quoted (s : string) : string := Py.dquote +:+ s +:+ Py.dquote.

(** The clause [row[key] == value] of an item of the mapping given to
    [conform], for a [str] value. *)
Definition item_clause (item : string * pyval) : Clause :=
  ComparisonClause EQ (fst item) (mk_LiteralStringExpression (str_of (snd item))).

(** The message of [parse_expression] for a value, and for the first value
    of a mapping that is not a string (the empty text when all are). *)
Definition unrecognized (value : pyval) : string :=
  "didn't recognize expression " +:+ py_format value.

Fixpoint first_unrecognized (items : list (string * pyval)) : string :=
  match items with
  | [] => ""
  | item :: rest =>
      if is_str (snd item) then first_unrecognized rest
      else unrecognized (snd item)
  end.

Definition is_range_op (op : Operation) : bool :=
  match op with
  | OpRange _ | OpRangeOffset _ => true
  | _ => false
  end.

(** The argument shapes no case of [pipe] takes: a first argument of a
    class other than the three, or a source or partial pipe followed by
    something that is not a range. *)
Definition pipe_rejects (first : PipeFirst) (second : option Operation) : bool :=
  match first, second with
  | FirstOther _, _ => true
  | FirstPipe _, _ => false
  | _, Some op => negb (is_range_op op)
  | _, None => false
  end.

(** * Properties *)

(** ** Text *)

Lemma append_cons (c : ascii) (s t : string) :
  String c s +:+ t = String c (s +:+ t).
Proof. reflexivity. Qed.

Lemma length_append (s t : string) :
  String.length (s +:+ t) = (String.length s + String.length t)%nat.
Proof.
  induction s as [|c s IH]; [reflexivity|].
  rewrite append_cons. simpl. now rewrite IH.
Qed.

Lemma append_nil_r (s : string) : s +:+ "" = s.
Proof.
  induction s as [|c s IH]; [reflexivity|]. rewrite append_cons. now f_equal.
Qed.

Lemma append_assoc (s t u : string) : (s +:+ t) +:+ u = s +:+ (t +:+ u).
Proof.
  induction s as [|c s IH]; [reflexivity|]. rewrite !append_cons. now f_equal.
Qed.

Lemma append_eq_nil (s t : string) : s +:+ t = "" -> s = "" /\ t = "".
Proof.
  destruct s; [auto|]. rewrite append_cons. discriminate.
Qed.

Lemma parenthesized_neq (s : string) : "(" +:+ s +:+ ")" <> s.
Proof.
  intros E. apply (f_equal String.length) in E.
  rewrite !length_append in E. simpl in E. lia.
Qed.

(** ** Clauses *)

Lemma precedence_range (c : Clause) : 0 <= precedence c <= 10.
Proof.
  destruct c as [b|[] l r|o n e]; simpl; lia.
Qed.

Lemma BinaryClause_to_flux (operation : BinaryOperation) (l r : Clause) :
  Clause_to_flux (BinaryClause operation l r) =
  ensure_precedence (BinaryClause operation l r) l +:+ " " +:+
  BinaryOperation_value operation +:+ " " +:+
  ensure_precedence (BinaryClause operation l r) r.
Proof. reflexivity. Qed.

Lemma ensure_precedence_wraps (self other : Clause) :
  ensure_precedence self other = "(" +:+ Clause_to_flux other +:+ ")" <->
  precedence self < precedence other.
Proof.
  unfold ensure_precedence, should_parenthesize.
  destruct (Z.ltb_spec (precedence self) (precedence other)) as [H|H].
  - split; auto.
  - split; [|lia]. intros E. symmetry in E. now apply parenthesized_neq in E.
Qed.

Lemma ensure_precedence_bare (self other : Clause) :
  ensure_precedence self other = Clause_to_flux other <->
  precedence other <= precedence self.
Proof.
  unfold ensure_precedence, should_parenthesize.
  destruct (Z.ltb_spec (precedence self) (precedence other)) as [H|H].
  - split; [|lia]. intros E. now apply parenthesized_neq in E.
  - split; auto.
Qed.

(** C1, as the code has it.  [BinaryClause.to_flux] renders the left side, the
    operator and the right side, separated by single spaces; a side is
    wrapped in parentheses exactly when the precedence number of the binary
    clause is strictly less than the precedence number of the side, and is
    rendered bare exactly when the side's number is at most the clause's.
    The numbers are 0 for a literal, 7 for a comparison, 9 for AND and 10
    for OR. *)
Theorem BinaryClause_parenthesizes_looser_side
    (operation : BinaryOperation) (l r : Clause) :
  let self := BinaryClause operation l r in
  Clause_to_flux self =
    ensure_precedence self l +:+ " " +:+ BinaryOperation_value operation +:+
    " " +:+ ensure_precedence self r
  /\ (forall side : Clause,
        ensure_precedence self side = "(" +:+ Clause_to_flux side +:+ ")" <->
        precedence self < precedence side)
  /\ (forall side : Clause,
        ensure_precedence self side = Clause_to_flux side <->
        precedence side <= precedence self)
  /\ (forall b, precedence (LiteralClause b) = 0)
  /\ (forall o n e, precedence (ComparisonClause o n e) = 7)
  /\ (forall a b, precedence (BinaryClause AND a b) = 9)
  /\ (forall a b, precedence (BinaryClause OR a b) = 10).
Proof.
  intros self. split; [apply BinaryClause_to_flux|].
  split; [intros side; apply ensure_precedence_wraps|].
  split; [intros side; apply ensure_precedence_bare|].
  repeat split.
Qed.

(** C1, as the specification has it, fails: under an AND clause (number 9) a
    literal side has the strictly smaller number 0, and it is not wrapped in
    parentheses. *)
Lemma BinaryClause_lower_side_not_wrapped :
  let side := LiteralClause true in
  let parent := BinaryClause AND side (LiteralClause false) in
  precedence side < precedence parent
  /\ ensure_precedence parent side <> "(" +:+ Clause_to_flux side +:+ ")"
  /\ Clause_to_flux parent = "true and false".
Proof.
  cbv zeta. split; [reflexivity|]. split; [discriminate|reflexivity].
Qed.

(** C2, as the code has it.  In [(A & B) | C] the left operand [A & B] is
    never wrapped in parentheses, and neither is [C]; when neither [A] nor
    [B] is an OR clause (precedence number at most 9) the text is exactly
    [A and B or C]. *)
Theorem and_then_or_text (A B C : Clause) :
  let AB := Clause_and A (OfClause B) in
  Clause_to_flux (Clause_or AB (OfClause C)) =
    Clause_to_flux AB +:+ " or " +:+ Clause_to_flux C
  /\ (precedence A <= 9 -> precedence B <= 9 ->
      Clause_to_flux (Clause_or AB (OfClause C)) =
        Clause_to_flux A +:+ " and " +:+ Clause_to_flux B +:+ " or " +:+
        Clause_to_flux C).
Proof.
  intros AB.
  assert (outer : Clause_to_flux (Clause_or AB (OfClause C)) =
                  Clause_to_flux AB +:+ " or " +:+ Clause_to_flux C).
  { unfold Clause_or, AB, Clause_and. simpl Clause_parse.
    rewrite BinaryClause_to_flux.
    rewrite (proj2 (ensure_precedence_bare _ _)) by (simpl; lia).
    rewrite (proj2 (ensure_precedence_bare _ C))
      by (pose proof (precedence_range C); simpl; lia).
    reflexivity. }
  split; [exact outer|]. intros HA HB. rewrite outer.
  unfold AB, Clause_and. simpl Clause_parse. rewrite BinaryClause_to_flux.
  rewrite (proj2 (ensure_precedence_bare _ A)) by (simpl; lia).
  rewrite (proj2 (ensure_precedence_bare _ B)) by (simpl; lia).
  simpl BinaryOperation_value. now rewrite !append_assoc.
Qed.

(** The text of [(true & (r.topic == a)) | False]: neither operand of the AND
    is an OR clause. *)
Lemma and_then_or_text_witness :
  Clause_to_flux
    (Clause_or (Clause_and (LiteralClause true)
                           (OfClause (ComparisonClause EQ "topic"
                                        (mk_LiteralStringExpression "a"))))
               (OfBool false)) =
  "true and r[" +:+ Py.dquote +:+ "topic" +:+ Py.dquote +:+ "] == " +:+
  Py.dquote +:+ "a" +:+ Py.dquote +:+ " or false".
Proof.
  apply (proj2 (and_then_or_text (LiteralClause true)
                  (ComparisonClause EQ "topic" (mk_LiteralStringExpression "a"))
                  (LiteralClause false))); simpl; lia.
Defined.

(** C2, as the specification has it, fails when [A] is an OR clause: the
    operand [A] is wrapped, so the text is not [A and B or C]. *)
Lemma and_then_or_text_or_operand :
  let A := BinaryClause OR (LiteralClause true) (LiteralClause false) in
  let B := LiteralClause true in
  let C := LiteralClause false in
  let whole := Clause_or (Clause_and A (OfClause B)) (OfClause C) in
  Clause_to_flux whole = "(true or false) and true or false"
  /\ Clause_to_flux whole <>
     Clause_to_flux A +:+ " and " +:+ Clause_to_flux B +:+ " or " +:+
     Clause_to_flux C.
Proof.
  cbv zeta. split; [reflexivity|discriminate].
Qed.

(** ** The tests of the repository, on the embedding *)

Section Tests.

Let q (s : string) : string := Py.dquote +:+ s +:+ Py.dquote.
Let topic (value : string) : result Clause :=
  Field_eq (Row_getattr mk_Row "topic") (VStr value).
Let minute : pyval := VTimedelta (Timedelta.make 0 0 0 1 0).

Example test_from_bucket :
  From_to_flux (from_bucket "bucket") = "from(bucket: " +:+ q "bucket" +:+ ")".
Proof. reflexivity. Qed.

Example test_from_range_timedelta :
  (r ← range (VTimedelta (Timedelta.make (-7) 0 0 0 0)) VNone;
   p ← pipe (FirstFrom (from_bucket "bucket")) (Some (RangeLike_operation r)) [];
   PipeResult_to_flux p) =
  Return ("from(bucket: " +:+ q "bucket" +:+ ")" +:+ Py.newline +:+
          "|> range(start: -7d)").
Proof. vm_compute. reflexivity. Qed.

Example test_and_or_filter_combination :
  (a ← topic "test_topic"; b ← topic "other_test_topic"; c ← topic "or_topic";
   mret (Filter_to_flux
           (mk_Filter (Clause_or (Clause_and a (OfClause b)) (OfClause c))))) =
  Return ("filter(fn: (r) => r[" +:+ q "topic" +:+ "] == " +:+ q "test_topic" +:+
          " and r[" +:+ q "topic" +:+ "] == " +:+ q "other_test_topic" +:+
          " or r[" +:+ q "topic" +:+ "] == " +:+ q "or_topic" +:+ ")").
Proof. vm_compute. reflexivity. Qed.

Example test_filter_any_conform_multiple :
  (f ← filter (fun row =>
                 OfClause <$>
                 any (fun value row => OfClause <$> conform value row)
                     [[("topic", VStr "test_topic"); ("field", VStr "test")];
                      [("topic", VStr "other_test_topic")]] row);
   mret (Filter_to_flux f)) =
  Return ("filter(fn: (r) => r[" +:+ q "topic" +:+ "] == " +:+ q "test_topic" +:+
          " and r[" +:+ q "field" +:+ "] == " +:+ q "test" +:+
          " or r[" +:+ q "topic" +:+ "] == " +:+ q "other_test_topic" +:+ ")").
Proof. vm_compute. reflexivity. Qed.

Example test_pivot :
  Operation_to_flux
    (OpPivot (pivot (VList [IStr "_time"]) (VList [IStr "topic"])
                      (VStr "_value"))) =
  Return ("pivot(rowKey: [" +:+ q "_time" +:+ "], columnKey: [" +:+ q "topic" +:+
          "], valueColumn: " +:+ q "_value" +:+ ")").
Proof. vm_compute. reflexivity. Qed.

Example test_aggregate_window :
  Operation_to_flux
    (OpAggregateWindow
       (aggregate_window minute (WindowOperation_member LAST)
                         (VBool false))) =
  Return "aggregateWindow(every: 60s, fn: last, createEmpty: false)".
Proof. vm_compute. reflexivity. Qed.

Example test_pipe_a_pipe_with_args :
  (r ← range minute VNone;
   start ← pipe (FirstFrom (from_bucket "bucket"))
                (Some (RangeLike_operation r)) [];
   a ← topic "test_topic";
   total ← pipe (PipeResult_first start) (Some (OpFilter (mk_Filter a))) [];
   PipeResult_to_flux total) =
  Return ("from(bucket: " +:+ q "bucket" +:+ ")" +:+ Py.newline +:+
          "|> range(start: 60s)" +:+ Py.newline +:+
          "|> filter(fn: (r) => r[" +:+ q "topic" +:+ "] == " +:+
          q "test_topic" +:+ ")").
Proof. vm_compute. reflexivity. Qed.

End Tests.

(** ** Durations *)

Lemma str_int_unit_not_empty (value : Z) (c : ascii) (unit : string) :
  Py.str_int value +:+ String c unit <> "".
Proof.
  intros E. apply append_eq_nil in E. destruct E as [_ E]. discriminate.
Qed.

Lemma _part_zero (unit : string) : _part 0 unit = "".
Proof. reflexivity. Qed.

Lemma _part_nonzero (value : Z) (unit : string) :
  value <> 0 -> _part value unit = Py.str_int value +:+ unit.
Proof.
  intros H. unfold _part. now destruct (Z.eqb_spec value 0).
Qed.

Lemma _part_empty (value : Z) (c : ascii) (unit : string) :
  _part value (String c unit) = "" <-> value = 0.
Proof.
  unfold _part. destruct (Z.eqb_spec value 0) as [E|E]; simpl.
  - tauto.
  - split; [|tauto]. intros H. now apply str_int_unit_not_empty in H.
Qed.

Lemma _timedelta_to_flux_parts (every : timedelta) :
  _timedelta_to_flux every =
  _part (days every) "d" +:+ _part (seconds every) "s" +:+
  _part (microseconds every) "us".
Proof.
  reflexivity.
Qed.

(** C8.  [_timedelta_to_flux] gives the concatenation, in the order days,
    seconds, microseconds, of value and unit for each component that is not
    zero; a zero component adds nothing, so the text is empty exactly for the
    all-zero duration.  Sixty seconds give [60s], minus seven days give
    [-7d]. *)
Theorem timedelta_to_flux_nonzero_components (every : timedelta) :
  _timedelta_to_flux every = duration_text every
  /\ (forall unit, _part 0 unit = "")
  /\ (_timedelta_to_flux every = "" <->
      days every = 0 /\ seconds every = 0 /\ microseconds every = 0)
  /\ _timedelta_to_flux (Timedelta.make 0 60 0 0 0) = "60s"
  /\ _timedelta_to_flux (Timedelta.make 0 0 0 1 0) = "60s"
  /\ _timedelta_to_flux (Timedelta.make (-7) 0 0 0 0) = "-7d"
  /\ _timedelta_to_flux (Timedelta.make 0 0 0 0 0) = ""
  /\ _to_flux (VTimedelta (Timedelta.make (-7) 0 0 0 0)) = Return (Some "-7d").
Proof.
  split.
  { rewrite _timedelta_to_flux_parts.
    unfold duration_text, duration_components, _part. simpl List.filter.
    destruct (days every =? 0), (seconds every =? 0), (microseconds every =? 0);
      cbn [negb map fst snd String.concat];
      rewrite ?append_nil_r; reflexivity. }
  split; [exact _part_zero|]. split; [|repeat split].
  rewrite _timedelta_to_flux_parts. split.
  - intros E. apply append_eq_nil in E. destruct E as [Ed E].
    apply append_eq_nil in E. destruct E as [Es Eu].
    apply _part_empty in Ed, Es, Eu. auto.
  - intros (Ed & Es & Eu). now rewrite Ed, Es, Eu.
Qed.

(** ** The value formatter *)

Lemma _to_flux_returns (value : pyval) :
  _to_flux value = Return (returned None (_to_flux value)).
Proof. now destruct value. Qed.

(** C7, as the code has it.  For a value of a class none of the cases of
    [_to_flux] names (the cases are [str], [bool], [list], [timedelta],
    [datetime] and [Enum]) the function raises nothing: it returns [None],
    and the generic stage prints that as the text [None].  A list is
    formatted whatever its items are, each item by its text in double
    quotes: a list of numbers is not refused either.  No value at all makes
    [_to_flux] raise. *)
Theorem to_flux_unsupported_returns_None (value : pyval) :
  (supported value = false ->
     _to_flux value = Return None
     /\ PipedFunction_to_flux (mk_Drop value) = Return "drop(columns: None)")
  /\ (forall msg, _to_flux value <> Raise msg)
  /\ (supported value = true -> exists text, _to_flux value = Return (Some text))
  /\ (forall items,
        _to_flux (VList items) =
        Return (Some ("[" +:+
                      Py.join ", "
                        (map (fun key => Py.dquote +:+ py_format_item key +:+
                                         Py.dquote) items) +:+ "]")))
  /\ _to_flux (VList [IInt 1; IInt 2]) =
     Return (Some ("[" +:+ Py.dquote +:+ "1" +:+ Py.dquote +:+ ", " +:+
                   Py.dquote +:+ "2" +:+ Py.dquote +:+ "]")).
Proof.
  split; [|split; [|split; [|split]]].
  - destruct value; try discriminate; intros _; split; reflexivity.
  - intros msg. now destruct value.
  - destruct value; try discriminate; intros _; eexists; reflexivity.
  - reflexivity.
  - reflexivity.
Qed.

Lemma to_flux_unsupported_witness :
  _to_flux VNone = Return None
  /\ PipedFunction_to_flux (mk_Drop VNone) = Return "drop(columns: None)".
Proof.
  apply (proj1 (to_flux_unsupported_returns_None VNone)). reflexivity.
Defined.

(** C7, as the specification has it, fails: an [int] is outside the
    supported set, and formatting it raises no error; a stage holding it is
    rendered, with [None] for the value. *)
Lemma to_flux_int_no_error :
  supported (VInt 5) = false
  /\ _to_flux (VInt 5) = Return None
  /\ (forall msg, _to_flux (VInt 5) <> Raise msg)
  /\ Operation_to_flux (OpKeep (keep (VInt 5))) = Return "keep(columns: None)".
Proof.
  repeat split. intros msg. discriminate.
Qed.

(** ** The range constructor *)

(** C6, as the code has it.  [range] looks at its first argument: a duration
    gives a relative range, whatever the second argument is; a timestamp
    gives an absolute range when a second argument is present (in particular
    for two timestamps); the call fails with [invalid types] exactly when the
    first argument is neither a duration nor a timestamp, or is a timestamp
    with no second argument. *)
Theorem range_dispatch (start stop : pyval) :
  (forall td, start = VTimedelta td ->
     range start stop = Return (IsRangeOffset (mk_RangeOffset start)))
  /\ (forall dt, start = VDatetime dt -> stop <> VNone ->
     range start stop = Return (IsRange (mk_Range start stop)))
  /\ (range start stop = Raise "invalid types" <->
      is_timedelta start = false /\ (is_datetime start = false \/ stop = VNone))
  /\ (forall msg, range start stop = Raise msg -> msg = "invalid types").
Proof.
  split; [|split; [|split]].
  - intros td ->. reflexivity.
  - intros dt -> H. destruct stop; try reflexivity. now contradict H.
  - destruct start; simpl; try (split; [intros _; auto|reflexivity]).
    + split; [discriminate|]. intros [H _]. discriminate.
    + destruct stop; simpl;
        try (split; [discriminate|]; intros [_ [H|H]]; discriminate).
      split; auto.
  - intros msg. destruct start; simpl; try congruence.
    destruct stop; congruence.
Qed.

(** The three shapes of the tests: two timestamps, a duration alone, a
    timestamp alone. *)
Lemma range_dispatch_witness :
  let a := VDatetime (mk_datetime 2020 1 1 0 0 0 0 Datetime.utc) in
  let b := VDatetime (mk_datetime 2022 1 1 0 0 0 0 Datetime.utc) in
  let d := VTimedelta (Timedelta.make (-7) 0 0 0 0) in
  range a b = Return (IsRange (mk_Range a b))
  /\ range d VNone = Return (IsRangeOffset (mk_RangeOffset d))
  /\ range a VNone = Raise "invalid types".
Proof.
  cbv zeta. split; [|split].
  - eapply (proj1 (proj2 (range_dispatch _ _))); [reflexivity|discriminate].
  - eapply (proj1 (range_dispatch _ VNone)). reflexivity.
  - apply (proj1 (proj2 (proj2 (range_dispatch _ _)))). split; [reflexivity|].
    right. reflexivity.
Defined.

(** C6, as the specification has it, fails: a duration together with a
    timestamp is not rejected, the timestamp is ignored and a relative range
    is returned. *)
Lemma range_duration_with_timestamp :
  let d := VTimedelta (Timedelta.make 1 0 0 0 0) in
  let t := VDatetime (mk_datetime 2022 1 1 0 0 0 0 Datetime.utc) in
  range d t = Return (IsRangeOffset (mk_RangeOffset d))
  /\ (forall msg, range d t <> Raise msg).
Proof.
  cbv zeta. split; [reflexivity|]. intros msg. discriminate.
Qed.

(** ** [conform] and [any] *)

Lemma reduce_Return_nonempty {A : Type} (function : A -> A -> A)
    (sequence : list (result A)) (a : A) :
  reduce function sequence = Return a -> sequence <> [].
Proof.
  destruct sequence; [discriminate|]. intros _. discriminate.
Qed.

(** C10.  The predicate of [conform] for the empty mapping fails when it is
    called, as does the predicate of [any] for the empty list of values:
    [reduce] is given an empty sequence and no initial value.  Either helper
    returns a clause only for at least one pair, or value. *)
Theorem conform_any_empty_fail :
  (forall row, conform [] row =
               Raise "reduce() of empty iterable with no initial value")
  /\ (forall (T : Type) (test : T -> FilterCallback) row,
        any test [] row =
        Raise "reduce() of empty iterable with no initial value")
  /\ (forall value row clause,
        conform value row = Return clause -> value <> [])
  /\ (forall (T : Type) (test : T -> FilterCallback) values row clause,
        any test values row = Return clause -> values <> []).
Proof.
  split; [reflexivity|]. split; [reflexivity|]. split.
  - intros value row clause H. apply reduce_Return_nonempty in H.
    intros ->. now apply H.
  - intros T test values row clause H. apply reduce_Return_nonempty in H.
    intros ->. now apply H.
Qed.

(** A mapping of two pairs and a list of two values, for which the helpers
    return a clause. *)
Lemma conform_any_empty_fail_witness :
  [("topic", VStr "test_topic"); ("field", VStr "test")] <> []
  /\ [true; false] <> [].
Proof.
  split.
  - apply (proj1 (proj2 (proj2 conform_any_empty_fail)) _ mk_Row
             (BinaryClause AND
                (ComparisonClause EQ "topic" (mk_LiteralStringExpression "test_topic"))
                (ComparisonClause EQ "field" (mk_LiteralStringExpression "test")))).
    reflexivity.
  - apply (proj2 (proj2 (proj2 conform_any_empty_fail)) bool
             (fun b _ => Return (OfBool b)) _ mk_Row
             (BinaryClause OR (LiteralClause true) (LiteralClause false))).
    reflexivity.
Defined.

(** ** Rendering a pipe *)

Lemma mapM_Return {A B : Type} (f : A -> result B) (g : A -> B) (l : list A) :
  (forall x, f x = Return (g x)) -> mapM f l = Return (map g l).
Proof.
  intros Hf. induction l as [|x l IH]; [reflexivity|].
  cbn [mapM map]. rewrite Hf. cbn. rewrite IH. reflexivity.
Qed.

Lemma PipedFunction_to_flux_returns {T : Type} `{PipedFunction T} (self : T) :
  PipedFunction_to_flux self = Return (returned "" (PipedFunction_to_flux self)).
Proof.
  unfold PipedFunction_to_flux.
  rewrite (mapM_Return _
             (fun field : string * pyval =>
                _snakecase_to_camelcase (fst field) +:+ ": " +:+
                format_value (returned None (_to_flux (snd field))))).
  - reflexivity.
  - intros field. now rewrite _to_flux_returns.
Qed.

Lemma Operation_to_flux_returns (op : Operation) :
  Operation_to_flux op = Return (Operation_text op).
Proof.
  unfold Operation_text.
  destruct op; cbn [Operation_to_flux];
    try reflexivity; now rewrite PipedFunction_to_flux_returns at 1.
Qed.

Lemma join_cons (sep x : string) (rest : list string) :
  Py.join sep (x :: rest) =
  x +:+ fold_right (fun y acc => sep +:+ y +:+ acc) "" rest.
Proof.
  revert x. induction rest as [|y rest IH]; intros x.
  - cbn. now rewrite append_nil_r.
  - change (Py.join sep (x :: y :: rest))
      with (x +:+ sep +:+ Py.join sep (y :: rest)).
    now rewrite IH.
Qed.

Lemma fold_right_map_text {A : Type} (sep : string) (f : A -> string)
    (l : list A) :
  fold_right (fun y acc => sep +:+ y +:+ acc) "" (map f l) =
  fold_right (fun x acc => sep +:+ f x +:+ acc) "" l.
Proof.
  induction l as [|x l IH]; [reflexivity|]. cbn [map fold_right]. now rewrite IH.
Qed.

Lemma Pipe_to_flux_returns (self : Pipe) :
  Pipe_to_flux self =
  Return (Py.join pipe_separator
            (From_to_flux (Pipe_initial self) ::
             Operation_text (RangeLike_operation (Pipe_range self)) ::
             map Operation_text (Pipe_operations self))).
Proof.
  unfold Pipe_to_flux.
  rewrite (mapM_Return _ Operation_text) by apply Operation_to_flux_returns.
  reflexivity.
Qed.

(** C3.  [Pipe.to_flux] returns the texts of the source, of the range and of
    each operation, in this order, joined by a line feed followed by [|> ]:
    the text of the source, then each further text preceded by the
    separator.  The pipe of the bucket [bucket] and the absolute range from
    2020-01-01T00:00:00Z to 2022-01-01T00:00:00Z renders to the two lines of
    the end-to-end scenario. *)
Theorem Pipe_to_flux_joins (self : Pipe) :
  let texts :=
    From_to_flux (Pipe_initial self) ::
    Operation_text (RangeLike_operation (Pipe_range self)) ::
    map Operation_text (Pipe_operations self) in
  Pipe_to_flux self = Return (Py.join pipe_separator texts)
  /\ (forall op, Operation_to_flux op = Return (Operation_text op))
  /\ Py.join pipe_separator texts =
       From_to_flux (Pipe_initial self) +:+ pipe_separator +:+
       Operation_text (RangeLike_operation (Pipe_range self)) +:+
       fold_right (fun op rest => pipe_separator +:+ Operation_text op +:+ rest)
                  "" (Pipe_operations self)
  /\ pipe_separator = String (ascii_of_nat 10) "|> "
  /\ (r ← range (VDatetime (mk_datetime 2020 1 1 0 0 0 0 Datetime.utc))
                (VDatetime (mk_datetime 2022 1 1 0 0 0 0 Datetime.utc));
      p ← pipe (FirstFrom (from_bucket "bucket"))
               (Some (RangeLike_operation r)) [];
      PipeResult_to_flux p) =
     Return ("from(bucket: " +:+ Py.dquote +:+ "bucket" +:+ Py.dquote +:+ ")" +:+
             Py.newline +:+
             "|> range(start: 2020-01-01T00:00:00+00:00, " +:+
             "stop: 2022-01-01T00:00:00+00:00)").
Proof.
  intros texts. split; [|split; [|split; [|split]]].
  - apply Pipe_to_flux_returns.
  - apply Operation_to_flux_returns.
  - unfold texts. rewrite join_cons. cbn [fold_right].
    now rewrite fold_right_map_text.
  - reflexivity.
  - vm_compute. reflexivity.
Qed.

(** ** Building a pipe *)

(** C5.  Building in two steps is building in one: [pipe(pipe(s, r), op1,
    op2)] and [pipe(s, r, op1, op2)] return the same pipe, of source [s],
    range [r] and operations [op1], [op2], so they render identically (and
    rendering succeeds). *)
Theorem pipe_two_steps (s : From) (r : RangeLike) (op1 op2 : Operation) :
  let one := pipe (FirstFrom s) (Some (RangeLike_operation r)) [op1; op2] in
  let two :=
    p ← pipe (FirstFrom s) (Some (RangeLike_operation r)) [];
    pipe (PipeResult_first p) (Some op1) [op2] in
  one = Return (IsPipe (mk_Pipe s r [op1; op2]))
  /\ two = one
  /\ (p ← two; PipeResult_to_flux p) = (p ← one; PipeResult_to_flux p)
  /\ (p ← one; PipeResult_to_flux p) =
     Return (Py.join pipe_separator
               [From_to_flux s; Operation_text (RangeLike_operation r);
                Operation_text op1; Operation_text op2]).
Proof.
  intros one two.
  assert (E1 : one = Return (IsPipe (mk_Pipe s r [op1; op2])))
    by (unfold one; now destruct r).
  assert (E2 : two = one) by (rewrite E1; unfold two; now destruct r).
  split; [exact E1|]. split; [exact E2|]. split; [now rewrite E2|].
  rewrite E1. cbn [mbind result_bind PipeResult_to_flux].
  apply Pipe_to_flux_returns.
Qed.

(** ** [pipe] and the store *)

Section StoreFacts.

Context (σ : gmap Store.ref Store.object).

Lemma alloc_fresh (o : Store.object) : σ !! (Store.alloc σ o).1 = None.
Proof.
  unfold Store.alloc. cbn. apply not_elem_of_dom, is_fresh.
Qed.

Lemma alloc_lookup (o : Store.object) :
  (Store.alloc σ o).2 !! (Store.alloc σ o).1 = Some o.
Proof.
  unfold Store.alloc. cbn. apply lookup_insert_eq.
Qed.

Lemma alloc_subseteq (o : Store.object) : σ ⊆ (Store.alloc σ o).2.
Proof.
  unfold Store.alloc. cbn. apply insert_subseteq, not_elem_of_dom, is_fresh.
Qed.

End StoreFacts.

(** What [new_Pipe] leaves behind: the old objects, a new list and a new pipe
    that refers to it. *)
Lemma new_Pipe_spec (σ : gmap Store.ref Store.object)
    (initial range : Store.ref) (items : list Store.ref) :
  exists p operations σ',
    Store.new_Pipe σ initial range items = (Return p, σ')
    /\ σ ⊆ σ'
    /\ σ !! p = None /\ σ !! operations = None
    /\ σ' !! p = Some (Store.ObjPipe initial range operations)
    /\ σ' !! operations = Some (Store.ObjList items).
Proof.
  unfold Store.new_Pipe.
  pose proof (alloc_fresh σ (Store.ObjList items)) as F1.
  pose proof (alloc_lookup σ (Store.ObjList items)) as L1.
  pose proof (alloc_subseteq σ (Store.ObjList items)) as S1.
  destruct (Store.alloc σ (Store.ObjList items)) as [operations σ1].
  cbn [fst snd] in F1, L1, S1.
  pose proof (alloc_fresh σ1 (Store.ObjPipe initial range operations)) as F2.
  pose proof (alloc_lookup σ1 (Store.ObjPipe initial range operations)) as L2.
  pose proof (alloc_subseteq σ1 (Store.ObjPipe initial range operations)) as S2.
  destruct (Store.alloc σ1 (Store.ObjPipe initial range operations)) as [p σ2].
  cbn [fst snd] in F2, L2, S2.
  exists p, operations, σ2. split; [reflexivity|].
  split; [now transitivity σ1|].
  split; [|split; [exact F1|split; [exact L2|]]].
  - destruct (σ !! p) as [o|] eqn:E; [|reflexivity].
    apply (lookup_weaken _ _ _ _ E) in S1. congruence.
  - now apply (lookup_weaken _ _ _ _ L1).
Qed.

Ltac pipe_cases σ :=
  unfold Store.pipe;
  repeat match goal with
         | |- context [match σ !! ?l with _ => _ end] =>
             destruct (σ !! l) eqn:?
         | |- context [match ?x with _ => _ end] => is_var x; destruct x
         | |- context [if ?b then _ else _] => destruct b eqn:?
         end.

Lemma pipe_subseteq (σ : gmap Store.ref Store.object) (first : Store.ref)
    (second : option Store.ref) (ops : list Store.ref) :
  σ ⊆ (Store.pipe σ first second ops).2.
Proof.
  pipe_cases σ; try reflexivity;
    try match goal with
        | |- context [Store.new_Pipe ?s ?i ?r ?l] =>
            let E := fresh in let S := fresh in
            destruct (new_Pipe_spec s i r l) as (? & ? & ? & E & S & _);
            rewrite E; exact S
        end.
  pose proof (alloc_subseteq σ (Store.ObjPartialPipe first)) as S.
  destruct (Store.alloc σ (Store.ObjPartialPipe first)). exact S.
Qed.

Section LoadMonotone.

Context (σ σ' : gmap Store.ref Store.object) (Hsub : σ ⊆ σ').

Lemma load_operation_weaken l op :
  Store.load_operation σ l = Some op -> Store.load_operation σ' l = Some op.
Proof.
  unfold Store.load_operation. destruct (σ !! l) as [o|] eqn:E; [|discriminate].
  rewrite (lookup_weaken _ _ _ _ E Hsub). auto.
Qed.

Lemma load_From_weaken l o :
  Store.load_From σ l = Some o -> Store.load_From σ' l = Some o.
Proof.
  unfold Store.load_From. destruct (σ !! l) as [x|] eqn:E; [|discriminate].
  rewrite (lookup_weaken _ _ _ _ E Hsub). auto.
Qed.

Lemma load_range_weaken l r :
  Store.load_range σ l = Some r -> Store.load_range σ' l = Some r.
Proof.
  unfold Store.load_range. destruct (σ !! l) as [x|] eqn:E; [|discriminate].
  rewrite (lookup_weaken _ _ _ _ E Hsub). auto.
Qed.

Lemma mapM_load_operation_weaken ls ops :
  mapM (Store.load_operation σ) ls = Some ops ->
  mapM (Store.load_operation σ') ls = Some ops.
Proof.
  rewrite !mapM_Some. intros H. eapply Forall2_impl; [exact H|].
  apply load_operation_weaken.
Qed.

Lemma load_list_weaken l ops :
  Store.load_list σ l = Some ops -> Store.load_list σ' l = Some ops.
Proof.
  unfold Store.load_list. destruct (σ !! l) as [x|] eqn:E; [|discriminate].
  rewrite (lookup_weaken _ _ _ _ E Hsub). destruct x; try discriminate.
  apply mapM_load_operation_weaken.
Qed.

Lemma load_PartialPipe_weaken l q :
  Store.load_PartialPipe σ l = Some q -> Store.load_PartialPipe σ' l = Some q.
Proof.
  unfold Store.load_PartialPipe. destruct (σ !! l) as [x|] eqn:E; [|discriminate].
  rewrite (lookup_weaken _ _ _ _ E Hsub).
  destruct x as [|i0| | |]; try discriminate.
  destruct (Store.load_From σ i0) as [f|] eqn:F; [|discriminate].
  now rewrite (load_From_weaken _ _ F).
Qed.

Lemma load_Pipe_weaken l p :
  Store.load_Pipe σ l = Some p -> Store.load_Pipe σ' l = Some p.
Proof.
  unfold Store.load_Pipe. destruct (σ !! l) as [x|] eqn:E; [|discriminate].
  rewrite (lookup_weaken _ _ _ _ E Hsub).
  destruct x as [|?|i0 r0 o0| |]; try discriminate.
  destruct (Store.load_From σ i0) as [f|] eqn:F; [|discriminate].
  destruct (Store.load_range σ r0) as [r|] eqn:R; [|discriminate].
  destruct (Store.load_list σ o0) as [ops|] eqn:O; [|discriminate].
  rewrite (load_From_weaken _ _ F), (load_range_weaken _ _ R),
    (load_list_weaken _ _ O). auto.
Qed.

End LoadMonotone.

(** C4.  [pipe(p)] for a pipe [p] and [pipe(q)] for a partial pipe [q], with
    no further argument, return [p] and [q]: the same value, and on the
    store the same object, with the store as it was.  So [pipe(p)] renders
    as [p] does. *)
Theorem pipe_identity (p : Pipe) (q : PartialPipe) :
  pipe (FirstPipe p) None [] = Return (IsPipe p)
  /\ pipe (FirstPartialPipe q) None [] = Return (IsPartialPipe q)
  /\ (x ← pipe (FirstPipe p) None []; PipeResult_to_flux x) = Pipe_to_flux p
  /\ (forall σ l initial range operations,
        σ !! l = Some (Store.ObjPipe initial range operations) ->
        Store.pipe σ l None [] = (Return l, σ))
  /\ (forall σ l initial,
        σ !! l = Some (Store.ObjPartialPipe initial) ->
        Store.pipe σ l None [] = (Return l, σ)).
Proof.
  split; [reflexivity|]. split; [reflexivity|]. split; [reflexivity|].
  split.
  - intros σ l initial range operations H. unfold Store.pipe. now rewrite H.
  - intros σ l initial H. unfold Store.pipe. now rewrite H.
Qed.

(** On the example store, [pipe] of the pipe at 4 and of the partial pipe at
    5. *)
Lemma pipe_identity_witness :
  Store.pipe example_store 4%positive None [] = (Return 4%positive, example_store)
  /\ Store.pipe example_store 5%positive None [] = (Return 5%positive, example_store).
Proof.
  pose proof (pipe_identity
                (mk_Pipe (from_bucket "bucket")
                   (IsRangeOffset (mk_RangeOffset VNone)) [])
                (mk_PartialPipe (from_bucket "bucket"))) as (_ & _ & _ & Hp & Hq).
  split.
  - apply (Hp example_store 4%positive 1%positive 2%positive 3%positive).
    vm_compute. reflexivity.
  - apply (Hq example_store 5%positive 1%positive). vm_compute. reflexivity.
Defined.

(** C9.  A call of [pipe] changes no object of the store it is given,
    whatever the arguments and whether it returns or raises: every object is
    afterwards what it was before, so a pipe or partial pipe given first has
    the source, the range and the operations it had.  When the first argument
    is a pipe and a second argument is given, the call returns a new pipe
    object, with the same source and range and a new list that holds the
    operations of the old one, then the second argument, then the remaining
    arguments, in their order. *)
Theorem pipe_never_mutates (σ : gmap Store.ref Store.object)
    (first : Store.ref) (second : option Store.ref) (ops : list Store.ref) :
  let after := (Store.pipe σ first second ops).2 in
  (forall l o, σ !! l = Some o -> after !! l = Some o)
  /\ (forall p, Store.load_Pipe σ first = Some p ->
                Store.load_Pipe after first = Some p)
  /\ (forall q, Store.load_PartialPipe σ first = Some q ->
                Store.load_PartialPipe after first = Some q)
  /\ (forall initial range operations items op,
        σ !! first = Some (Store.ObjPipe initial range operations) ->
        σ !! operations = Some (Store.ObjList items) ->
        second = Some op ->
        exists p' operations',
          Store.pipe σ first second ops = (Return p', after)
          /\ σ !! p' = None /\ σ !! operations' = None
          /\ after !! p' = Some (Store.ObjPipe initial range operations')
          /\ after !! operations' = Some (Store.ObjList (items ++ op :: ops)))
  /\ (forall p op vops,
        pipe (FirstPipe p) (Some op) vops =
        Return (IsPipe (mk_Pipe (Pipe_initial p) (Pipe_range p)
                                (Pipe_operations p ++ op :: vops)))).
Proof.
  intros after. pose proof (pipe_subseteq σ first second ops) as Hsub.
  fold after in Hsub.
  split; [|split; [|split; [|split]]].
  - intros l o H. exact (lookup_weaken _ _ _ _ H Hsub).
  - intros p. now apply load_Pipe_weaken.
  - intros q. now apply load_PartialPipe_weaken.
  - intros initial range operations items op Hfirst Hops ->.
    unfold after, Store.pipe. rewrite Hfirst, Hops.
    destruct (new_Pipe_spec σ initial range (items ++ op :: ops))
      as (p' & o' & σ' & E & _ & Fp & Fo & Lp & Lo).
    rewrite E. exists p', o'. cbn [snd]. auto.
  - reflexivity.
Qed.

(** On the example store, [pipe(p, last, last, range)] for the pipe at 4. *)
Lemma pipe_never_mutates_witness :
  exists p' operations',
    Store.pipe example_store 4%positive (Some 6%positive) [6%positive; 2%positive] =
      (Return p',
       (Store.pipe example_store 4%positive (Some 6%positive) [6%positive; 2%positive]).2)
    /\ example_store !! p' = None /\ example_store !! operations' = None
    /\ (Store.pipe example_store 4%positive (Some 6%positive) [6%positive; 2%positive]).2
         !! p' = Some (Store.ObjPipe 1%positive 2%positive operations')
    /\ (Store.pipe example_store 4%positive (Some 6%positive) [6%positive; 2%positive]).2
         !! operations' =
       Some (Store.ObjList ([] ++ 6%positive :: [6%positive; 2%positive])).
Proof.
  apply (proj1 (proj2 (proj2 (proj2
           (pipe_never_mutates example_store 4%positive (Some 6%positive)
              [6%positive; 2%positive])))) 1%positive 2%positive 3%positive []
           6%positive).
  - vm_compute. reflexivity.
  - vm_compute. reflexivity.
  - reflexivity.
Defined.

(** ** The two embeddings of [pipe] agree *)

Lemma new_Pipe_load (σ : gmap Store.ref Store.object)
    (initial range : Store.ref) (items : list Store.ref)
    (f : From) (r : RangeLike) (vitems : list Operation) :
  Store.load_From σ initial = Some f ->
  Store.load_range σ range = Some r ->
  mapM (Store.load_operation σ) items = Some vitems ->
  exists l,
    (Store.new_Pipe σ initial range items).1 = Return l
    /\ Store.load_result (Store.new_Pipe σ initial range items).2 l =
       Some (IsPipe (mk_Pipe f r vitems)).
Proof.
  intros HF HR HI.
  destruct (new_Pipe_spec σ initial range items)
    as (p & o & σ' & E & S & _ & _ & Lp & Lo).
  rewrite E. exists p. split; [reflexivity|]. cbn [snd].
  unfold Store.load_result, Store.load_Pipe. rewrite Lp.
  rewrite (load_From_weaken σ σ' S _ _ HF), (load_range_weaken σ σ' S _ _ HR).
  unfold Store.load_list. rewrite Lo.
  rewrite (mapM_load_operation_weaken σ σ' S _ _ HI). reflexivity.
Qed.

Lemma load_range_is_range (σ : gmap Store.ref Store.object) (l : Store.ref)
    (op : Operation) :
  Store.load_operation σ l = Some op ->
  match op with
  | OpRange o => Store.is_range (σ !! l) = true
                 /\ Store.load_range σ l = Some (IsRange o)
  | OpRangeOffset o => Store.is_range (σ !! l) = true
                       /\ Store.load_range σ l = Some (IsRangeOffset o)
  | _ => Store.is_range (σ !! l) = false
  end.
Proof.
  unfold Store.load_operation, Store.load_range, Store.is_range.
  destruct (σ !! l) as [[x| | | |]|]; try discriminate.
  intros [= ->]. destruct op; auto.
Qed.

(** X18.  On a store whose objects read back as values, the call on the store
    returns an object that reads back as what the call on the values
    returns, and it raises when that one raises, leaving the store as it
    was. *)
Lemma Store_pipe_refines (σ : gmap Store.ref Store.object)
    (first : Store.ref) (second : option Store.ref) (ops : list Store.ref)
    (a : PipeFirst) (b : option Operation) (vops : list Operation) :
  Store.load_first σ first = Some a ->
  Store.load_second σ second = Some b ->
  mapM (Store.load_operation σ) ops = Some vops ->
  match pipe a b vops with
  | Return v =>
      exists l,
        (Store.pipe σ first second ops).1 = Return l
        /\ Store.load_result (Store.pipe σ first second ops).2 l = Some v
  | Raise msg => Store.pipe σ first second ops = (Raise msg, σ)
  end.
Proof.
  intros Ha Hb Hops. unfold Store.load_first in Ha.
  destruct (σ !! first) as [[op|i|i r o|items|v]|] eqn:Efirst; try discriminate.
  - (* a source *)
    destruct op; try discriminate. injection Ha as <-.
    destruct second as [l|]; cbn in Hb.
    + destruct (Store.load_operation σ l) as [opb|] eqn:El; [|discriminate].
      injection Hb as <-. pose proof (load_range_is_range σ l opb El) as Hr.
      unfold Store.pipe. rewrite Efirst.
      assert (HF : Store.load_From σ first = Some o)
        by (unfold Store.load_From; now rewrite Efirst).
      destruct opb; try (cbn; now rewrite Hr); destruct Hr as [-> Hr]; cbn;
        now apply new_Pipe_load.
    + injection Hb as <-. cbn. unfold Store.pipe. rewrite Efirst.
      pose proof (alloc_lookup σ (Store.ObjPartialPipe first)) as L.
      pose proof (alloc_subseteq σ (Store.ObjPartialPipe first)) as S.
      destruct (Store.alloc σ (Store.ObjPartialPipe first)) as [p σ1].
      cbn [fst snd] in *. exists p. split; [reflexivity|].
      unfold Store.load_result, Store.load_PartialPipe. rewrite L.
      unfold Store.load_From. now rewrite (lookup_weaken _ _ _ _ Efirst S).
  - (* a partial pipe *)
    assert (Hq : Store.load_PartialPipe σ first =
                 mk_PartialPipe <$> Store.load_From σ i)
      by (unfold Store.load_PartialPipe; now rewrite Efirst).
    rewrite Hq in Ha.
    destruct (Store.load_From σ i) as [f|] eqn:HF; [|discriminate].
    injection Ha as <-.
    destruct second as [l|]; cbn in Hb.
    + destruct (Store.load_operation σ l) as [opb|] eqn:El; [|discriminate].
      injection Hb as <-. pose proof (load_range_is_range σ l opb El) as Hr.
      unfold Store.pipe. rewrite Efirst.
      destruct opb; try (cbn; now rewrite Hr); destruct Hr as [-> Hr]; cbn;
        now apply new_Pipe_load.
    + injection Hb as <-. cbn. unfold Store.pipe. rewrite Efirst.
      exists first. split; [reflexivity|]. cbn [snd].
      unfold Store.load_result. rewrite Efirst, Hq. reflexivity.
  - (* a pipe *)
    destruct (Store.load_Pipe σ first) as [p|] eqn:Hp; [|discriminate].
    injection Ha as <-.
    destruct second as [l|]; cbn in Hb.
    + destruct (Store.load_operation σ l) as [opb|] eqn:El; [|discriminate].
      injection Hb as <-. cbn.
      unfold Store.load_Pipe in Hp. rewrite Efirst in Hp.
      destruct (Store.load_From σ i) as [f|] eqn:HF; [|discriminate].
      destruct (Store.load_range σ r) as [rg|] eqn:HR; [|discriminate].
      destruct (Store.load_list σ o) as [vitems|] eqn:HL; [|discriminate].
      injection Hp as <-. cbn.
      unfold Store.load_list in HL.
      destruct (σ !! o) as [[| | |items|]|] eqn:Eo; try discriminate.
      unfold Store.pipe. rewrite Efirst, Eo.
      apply new_Pipe_load; [exact HF|exact HR|].
      apply mapM_Some. apply Forall2_app; [now apply mapM_Some|].
      constructor; [exact El|now apply mapM_Some].
    + injection Hb as <-. cbn. unfold Store.pipe. rewrite Efirst.
      exists first. split; [reflexivity|]. cbn [snd].
      unfold Store.load_result. now rewrite Efirst, Hp.
Qed.

(** ** More on texts: [split], [join], [strip] and [dedent] *)

Lemma has_char_append (c : ascii) (s t : string) :
  has_char c (s +:+ t) = has_char c s || has_char c t.
Proof.
  induction s as [|d s IH]; [reflexivity|].
  rewrite append_cons. cbn [has_char]. rewrite IH. now rewrite orb_assoc.
Qed.

Lemma split_pieces_without_sep (sep : ascii) (val : string) :
  Forall (fun piece => has_char sep piece = false) (Py.split sep val).
Proof.
  induction val as [|c val IH]; cbn [Py.split].
  - repeat constructor.
  - destruct (Ascii.eqb c sep) eqn:E.
    + constructor; [reflexivity|exact IH].
    + destruct (Py.split sep val) as [|piece pieces].
      * repeat constructor. cbn. now rewrite E.
      * inversion IH as [|? ? Hp Hps]; subst. constructor; [|exact Hps].
        cbn. now rewrite E, Hp.
Qed.

Lemma split_without_sep (sep : ascii) (val : string) :
  has_char sep val = false -> Py.split sep val = [val].
Proof.
  induction val as [|c val IH]; [reflexivity|]. cbn [has_char Py.split].
  intros H. apply orb_false_elim in H. destruct H as [E H].
  rewrite E, (IH H). reflexivity.
Qed.

Lemma split_append_sep (sep : ascii) (x rest : string) :
  has_char sep x = false ->
  Py.split sep (x +:+ String sep rest) = x :: Py.split sep rest.
Proof.
  induction x as [|c x IH]; intros H.
  - change ("" +:+ String sep rest) with (String sep rest).
    cbn [Py.split]. now rewrite Ascii.eqb_refl.
  - rewrite append_cons. cbn [has_char] in H.
    apply orb_false_elim in H. destruct H as [E H].
    cbn [Py.split]. rewrite E, (IH H). reflexivity.
Qed.

(** Splitting what was joined gives the pieces back, when no piece holds the
    separator. *)
Lemma split_join (sep : ascii) (pieces : list string) :
  pieces <> [] ->
  Forall (fun piece => has_char sep piece = false) pieces ->
  Py.split sep (Py.join (String sep "") pieces) = pieces.
Proof.
  induction pieces as [|x pieces IH]; [congruence|]. intros _ H.
  inversion H as [|? ? Hx Hrest]; subst.
  destruct pieces as [|y pieces].
  - cbn [Py.join]. now apply split_without_sep.
  - change (Py.join (String sep "") (x :: y :: pieces))
      with (x +:+ String sep (Py.join (String sep "") (y :: pieces))).
    rewrite (split_append_sep _ _ _ Hx). f_equal. now apply IH.
Qed.

Lemma lstrip_without (c : ascii) (s : string) :
  has_char c s = false -> has_char c (Py.lstrip s) = false.
Proof.
  induction s as [|d s IH]; [auto|]. intros H. cbn [Py.lstrip].
  destruct (Py.is_space d); [|exact H].
  cbn [has_char] in H. apply orb_false_elim in H. now apply IH.
Qed.

Lemma rstrip_without (c : ascii) (s : string) :
  has_char c s = false -> has_char c (Py.rstrip s) = false.
Proof.
  induction s as [|d s IH]; [auto|]. intros H. cbn [has_char] in H.
  apply orb_false_elim in H. destruct H as [E H]. cbn [Py.rstrip].
  specialize (IH H). destruct (Py.rstrip s) as [|k kept].
  - destruct (Py.is_space d); [reflexivity|]. cbn. now rewrite E.
  - cbn [has_char]. cbn [has_char] in IH. now rewrite E, IH.
Qed.

Lemma strip_without (c : ascii) (s : string) :
  has_char c s = false -> has_char c (Py.strip s) = false.
Proof.
  intros H. unfold Py.strip. now apply rstrip_without, lstrip_without.
Qed.

Lemma lstrip_starts (s : string) : starts_space (Py.lstrip s) = false.
Proof.
  induction s as [|c s IH]; [reflexivity|]. cbn [Py.lstrip].
  destruct (Py.is_space c) eqn:E; [exact IH|]. cbn. exact E.
Qed.

Lemma lstrip_id (s : string) : starts_space s = false -> Py.lstrip s = s.
Proof.
  destruct s as [|c s]; [reflexivity|]. cbn. now intros ->.
Qed.

Lemma rstrip_starts (s : string) :
  starts_space s = false -> starts_space (Py.rstrip s) = false.
Proof.
  destruct s as [|c s]; [reflexivity|]. cbn [starts_space Py.rstrip].
  intros E. destruct (Py.rstrip s); [now rewrite E|exact E].
Qed.

Lemma rstrip_idempotent (s : string) : Py.rstrip (Py.rstrip s) = Py.rstrip s.
Proof.
  induction s as [|c s IH]; [reflexivity|]. cbn [Py.rstrip].
  destruct (Py.rstrip s) as [|k kept] eqn:E.
  - destruct (Py.is_space c) eqn:Ec; [reflexivity|]. cbn. now rewrite Ec.
  - cbn [Py.rstrip]. cbn [Py.rstrip] in IH. now rewrite IH.
Qed.

Lemma rstrip_id (s : string) : ends_space s = false -> Py.rstrip s = s.
Proof.
  induction s as [|c s IH]; [reflexivity|]. cbn [ends_space Py.rstrip].
  destruct s as [|d s].
  - intros ->. reflexivity.
  - intros H. now rewrite (IH H).
Qed.

Lemma strip_idempotent (s : string) : Py.strip (Py.strip s) = Py.strip s.
Proof.
  unfold Py.strip.
  rewrite (lstrip_id (Py.rstrip (Py.lstrip s)))
    by apply rstrip_starts, lstrip_starts.
  apply rstrip_idempotent.
Qed.

Lemma split_not_nil (sep : ascii) (val : string) : Py.split sep val <> [].
Proof.
  destruct val as [|c val]; cbn [Py.split]; [discriminate|].
  destruct (Ascii.eqb c sep); [discriminate|].
  destruct (Py.split sep val); discriminate.
Qed.

Lemma dedent_split (val : string) :
  Py.split line_feed (dedent val) = map Py.strip (Py.split line_feed val).
Proof.
  unfold dedent. apply split_join.
  - intros E. apply map_eq_nil in E. exact (split_not_nil _ _ E).
  - pose proof (split_pieces_without_sep line_feed val) as H.
    induction H as [|piece pieces Hp _ IH]; constructor; [|exact IH].
    now apply strip_without.
Qed.

(** X1.  The lines of [dedent val] are the lines of [val], each stripped:
    as many lines, none with white space at either end.  So [dedent] changes
    nothing when applied again. *)
Theorem dedent_lines_stripped (val : string) :
  Py.split line_feed (dedent val) = map Py.strip (Py.split line_feed val)
  /\ length (Py.split line_feed (dedent val)) =
     length (Py.split line_feed val)
  /\ Forall (fun line => Py.strip line = line)
            (Py.split line_feed (dedent val))
  /\ dedent (dedent val) = dedent val.
Proof.
  pose proof (dedent_split val) as E. split; [exact E|].
  split; [now rewrite E, length_map|]. split.
  - rewrite E. clear E. induction (Py.split line_feed val) as [|l ls IH];
      cbn [map]; constructor; [apply strip_idempotent|exact IH].
  - unfold dedent at 1. fold line_feed. rewrite E. rewrite map_map.
    unfold dedent. f_equal. apply map_ext. intros l. apply strip_idempotent.
Qed.

Lemma dedent_id (val : string) :
  has_char line_feed val = false ->
  starts_space val = false ->
  ends_space val = false ->
  dedent val = val.
Proof.
  intros Hn Hs He. unfold dedent. fold line_feed.
  rewrite (split_without_sep _ _ Hn). cbn [map Py.join].
  unfold Py.strip. rewrite (lstrip_id _ Hs). now apply rstrip_id.
Qed.

(** X2.  [dedent] leaves a text alone when it is one line (no line feed) and
    has no white space at its start or end; around a line feed it removes
    the white space, inside a line it removes none. *)
Theorem dedent_one_line (val : string) :
  (has_char line_feed val = false ->
   starts_space val = false ->
   ends_space val = false ->
   dedent val = val)
  /\ dedent ("a  b " +:+ Py.newline +:+ "  c") = "a  b" +:+ Py.newline +:+ "c".
Proof.
  split; [apply dedent_id|reflexivity].
Qed.

(** A stage text of two words is unchanged. *)
Lemma dedent_one_line_witness : dedent "last ()" = "last ()".
Proof.
  apply (proj1 (dedent_one_line "last ()")); reflexivity.
Defined.

Lemma ends_space_append_char (s : string) (c : ascii) :
  ends_space (s +:+ String c "") = Py.is_space c.
Proof.
  induction s as [|d s IH]; [reflexivity|]. rewrite append_cons.
  destruct s as [|e s]; [reflexivity|].
  rewrite append_cons in *. exact IH.
Qed.

(** X3.  [filter] calls the predicate once, on a row, and passes on what it
    raises.  When the text of the clause it returns has no line feed, the
    stage renders as [filter(fn: (r) => <clause>)], the clause text
    untouched. *)
Theorem filter_renders_clause (callback : FilterCallback) :
  (forall msg, callback mk_Row = Raise msg -> filter callback = Raise msg)
  /\ (forall val,
        callback mk_Row = Return val ->
        has_char line_feed (Clause_to_flux (Clause_parse val)) = false ->
        (f ← filter callback; mret (Filter_to_flux f)) =
        Return ("filter(fn: (r) => " +:+ Clause_to_flux (Clause_parse val) +:+ ")")).
Proof.
  split.
  - intros msg H. unfold filter. now rewrite H.
  - intros val H Hn. unfold filter. rewrite H. cbn. f_equal.
    unfold Filter_to_flux. cbn [Filter_clause]. apply dedent_id.
    + rewrite !has_char_append, Hn. reflexivity.
    + reflexivity.
    + rewrite <- append_assoc. apply ends_space_append_char.
Qed.

(** The predicate [lambda r: (r.topic == "a") | True]. *)
Lemma filter_renders_clause_witness :
  (f ← filter (fun r => c ← Field_eq (Row_getattr r "topic") (VStr "a");
                      mret (OfClause (Clause_or c (OfBool true))));
   mret (Filter_to_flux f)) =
  Return ("filter(fn: (r) => " +:+
          Clause_to_flux
            (Clause_or (ComparisonClause EQ "topic" (mk_LiteralStringExpression "a"))
                       (OfBool true)) +:+ ")").
Proof.
  apply (proj2 (filter_renders_clause _)
           (OfClause (Clause_or (ComparisonClause EQ "topic"
                                   (mk_LiteralStringExpression "a"))
                                (OfBool true)))); reflexivity.
Defined.

(** ** [_snakecase_to_camelcase] *)

Lemma upper_char_underscore (c : ascii) :
  Ascii.eqb (Py.upper_char c) underscore = Ascii.eqb c underscore.
Proof.
  destruct c as [[] [] [] [] [] [] [] []]; reflexivity.
Qed.

Lemma lower_char_underscore (c : ascii) :
  Ascii.eqb (Py.lower_char c) underscore = Ascii.eqb c underscore.
Proof.
  destruct c as [[] [] [] [] [] [] [] []]; reflexivity.
Qed.

Lemma lower_upper_char (c : ascii) :
  Py.is_upper c = false -> Py.lower_char (Py.upper_char c) = c.
Proof.
  destruct c as [[] [] [] [] [] [] [] []]; intros H;
    first [reflexivity | discriminate H].
Qed.

Lemma lower_char_id (c : ascii) : Py.is_upper c = false -> Py.lower_char c = c.
Proof.
  unfold Py.lower_char. now intros ->.
Qed.

Lemma lower_underscore (s : string) :
  has_char underscore (Py.lower s) = has_char underscore s.
Proof.
  induction s as [|c s IH]; [reflexivity|]. cbn [Py.lower has_char].
  now rewrite lower_char_underscore, IH.
Qed.

Lemma title_underscore (c : ascii) :
  has_char underscore (Py.title c) = Ascii.eqb c underscore.
Proof.
  destruct c as [[] [] [] [] [] [] [] []]; reflexivity.
Qed.

Lemma capitalize_underscore (s : string) :
  has_char underscore (Py.capitalize s) = has_char underscore s.
Proof.
  destruct s as [|c s]; [reflexivity|]. cbn [Py.capitalize has_char].
  now rewrite has_char_append, title_underscore, lower_underscore.
Qed.

Lemma lower_first_title (c : ascii) (rest : string) :
  Py.is_upper c = false -> (nat_of_ascii c <? 128)%nat = true ->
  Py.lower_first (Py.title c +:+ rest) = String c rest.
Proof.
  destruct c as [[] [] [] [] [] [] [] []]; intros H1 H2;
    first [reflexivity | discriminate H1 | discriminate H2].
Qed.

Lemma lower_first_underscore (s : string) :
  has_char underscore (Py.lower_first s) = has_char underscore s.
Proof.
  destruct s as [|c s]; [reflexivity|]. cbn [Py.lower_first has_char].
  now rewrite lower_char_underscore.
Qed.

Lemma join_empty_without (c : ascii) (pieces : list string) :
  Forall (fun piece => has_char c piece = false) pieces ->
  has_char c (Py.join "" pieces) = false.
Proof.
  induction 1 as [|x pieces Hx _ IH]; [reflexivity|].
  destruct pieces as [|y pieces]; [exact Hx|].
  change (Py.join "" (x :: y :: pieces)) with (x +:+ Py.join "" (y :: pieces)).
  now rewrite has_char_append, Hx, IH.
Qed.

Lemma lower_id (s : string) : no_upper s = true -> Py.lower s = s.
Proof.
  induction s as [|c s IH]; [reflexivity|]. cbn [no_upper Py.lower].
  intros H. apply andb_prop in H. destruct H as [Hc Hs].
  apply negb_true_iff in Hc. now rewrite (lower_char_id _ Hc), (IH Hs).
Qed.

(** X4.  The name [_snakecase_to_camelcase] gives holds no underscore,
    whatever the name it is given. *)
Theorem snakecase_to_camelcase_no_underscore (val : string) :
  has_char underscore (_snakecase_to_camelcase val) = false.
Proof.
  unfold _snakecase_to_camelcase. fold underscore.
  rewrite lower_first_underscore. apply join_empty_without.
  pose proof (split_pieces_without_sep underscore val) as H.
  induction H as [|piece pieces Hp _ IH]; cbn [map]; constructor; [|exact IH].
  now rewrite capitalize_underscore.
Qed.

(** X5.  A name of ASCII characters with no underscore and no upper-case
    letter, as [start], [columns] or [fn], is given back as it is.  A name in
    camel case is not: its upper-case letters are lowered, so the function
    applied twice does not give what it gives applied once. *)
Theorem snakecase_to_camelcase_plain_name (val : string) :
  (is_ascii val = true -> has_char underscore val = false ->
   no_upper val = true ->
   _snakecase_to_camelcase val = val)
  /\ _snakecase_to_camelcase "row_key" = "rowKey"
  /\ _snakecase_to_camelcase (_snakecase_to_camelcase "row_key") = "rowkey".
Proof.
  split; [|split; reflexivity]. intros Ha Hu Hn.
  unfold _snakecase_to_camelcase. fold underscore.
  rewrite (split_without_sep _ _ Hu). cbn [map Py.join].
  destruct val as [|c val]; [reflexivity|].
  cbn [Py.capitalize]. cbn [no_upper] in Hn. cbn [is_ascii] in Ha.
  apply andb_prop in Hn. destruct Hn as [Hc Hs]. apply negb_true_iff in Hc.
  apply andb_prop in Ha. destruct Ha as [Hac _].
  now rewrite (lower_id _ Hs), (lower_first_title _ _ Hc Hac).
Qed.

Lemma snakecase_to_camelcase_plain_name_witness :
  _snakecase_to_camelcase "columns" = "columns".
Proof.
  apply (proj1 (snakecase_to_camelcase_plain_name "columns")); reflexivity.
Defined.

(** ** [Sort] and [_list_to_flux] *)

Lemma join_quoted (x : string) (rest : list string) :
  Py.dquote +:+ Py.join (Py.dquote +:+ ", " +:+ Py.dquote) (x :: rest) +:+ Py.dquote =
  Py.join ", " (map quoted (x :: rest)).
Proof.
  revert x. induction rest as [|y rest IH]; intros x; [reflexivity|].
  change (Py.join (Py.dquote +:+ ", " +:+ Py.dquote) (x :: y :: rest))
    with (x +:+ (Py.dquote +:+ ", " +:+ Py.dquote) +:+
          Py.join (Py.dquote +:+ ", " +:+ Py.dquote) (y :: rest)).
  change (Py.join ", " (map quoted (x :: y :: rest)))
    with (quoted x +:+ ", " +:+ Py.join ", " (map quoted (y :: rest))).
  rewrite <- IH. unfold quoted. now rewrite !append_assoc.
Qed.

(** X6.  For a list of columns that is not empty, [Sort] renders the columns
    as [_list_to_flux] renders a list, and [desc] is [true] exactly for
    [Order.DESC].  For the empty list it does not: [Sort] renders a list with
    one empty name where [_list_to_flux] renders the empty list. *)
Theorem Sort_columns_as_list (columns : list string) (sort_order : Order) :
  (columns <> [] ->
   Sort_to_flux (sort columns sort_order) =
   "sort(columns: " +:+ _list_to_flux (map IStr columns) +:+ ", desc: " +:+
   bool_to_flux (Order_eqb sort_order DESC) +:+ ")")
  /\ Sort_to_flux (sort [] sort_order) =
     "sort(columns: [" +:+ Py.dquote +:+ Py.dquote +:+ "], desc: " +:+
     bool_to_flux (Order_eqb sort_order DESC) +:+ ")"
  /\ _list_to_flux [] = "[]".
Proof.
  split; [|split; [destruct sort_order|]; reflexivity].
  intros H. destruct columns as [|x rest]; [congruence|].
  unfold Sort_to_flux, sort, _list_to_flux. cbn [Sort_columns Sort_sort_order].
  rewrite map_map.
  change (fun x : string => Py.dquote +:+ py_format_item (IStr x) +:+ Py.dquote)
    with quoted.
  rewrite <- join_quoted.
  replace (if Order_eqb sort_order DESC then "true" else "false")
    with (bool_to_flux (Order_eqb sort_order DESC)) by reflexivity.
  now rewrite !append_assoc.
Qed.

Lemma Sort_columns_as_list_witness :
  Sort_to_flux (sort ["_value"; "_time"] DESC) =
  "sort(columns: " +:+ _list_to_flux [IStr "_value"; IStr "_time"] +:+
  ", desc: " +:+
  bool_to_flux (Order_eqb DESC DESC) +:+ ")".
Proof.
  apply (proj1 (Sort_columns_as_list ["_value"; "_time"] DESC)). discriminate.
Defined.

(** ** Comparisons *)

(** X7.  Comparing a field with a string gives the comparison clause of the
    field's name and the string, rendered with the name and the string in
    double quotes, around [==] or [!=]; comparing it with a value of any
    other class raises, with the message [didn't recognize expression]
    followed by the text of the value. *)
Theorem Field_comparison (self : Field) (other : pyval) :
  (forall s, other = VStr s ->
     Field_eq self other =
       Return (ComparisonClause EQ (Field_name self) (mk_LiteralStringExpression s))
     /\ Field_ne self other =
       Return (ComparisonClause NE (Field_name self) (mk_LiteralStringExpression s))
     /\ (c ← Field_eq self other; mret (Clause_to_flux c)) =
        Return ("r[" +:+ quoted (Field_name self) +:+ "] == " +:+ quoted s)
     /\ (c ← Field_ne self other; mret (Clause_to_flux c)) =
        Return ("r[" +:+ quoted (Field_name self) +:+ "] != " +:+ quoted s))
  /\ (is_str other = false ->
      Field_eq self other =
        Raise ("didn't recognize expression " +:+ py_format other)
      /\ Field_ne self other =
        Raise ("didn't recognize expression " +:+ py_format other)).
Proof.
  split.
  - intros s ->. repeat split; cbn; unfold quoted; now rewrite ?append_assoc.
  - destruct other; try discriminate; intros _; split; reflexivity.
Qed.

(** An [int], [None] and a list of a string and an [int]. *)
Lemma Field_comparison_witness :
  Field_eq (Row_getitem mk_Row "topic") (VInt 3) =
    Raise "didn't recognize expression 3"
  /\ Field_ne (Row_getitem mk_Row "topic") VNone =
    Raise "didn't recognize expression None"
  /\ Field_eq (Row_getitem mk_Row "topic") (VList [IStr "a"; IInt 1]) =
    Raise "didn't recognize expression ['a', 1]".
Proof.
  split; [|split].
  - apply (proj2 (Field_comparison (Row_getitem mk_Row "topic") (VInt 3))).
    reflexivity.
  - apply (proj2 (Field_comparison (Row_getitem mk_Row "topic") VNone)).
    reflexivity.
  - apply (proj2 (Field_comparison (Row_getitem mk_Row "topic")
                    (VList [IStr "a"; IInt 1]))).
    reflexivity.
Defined.

(** ** Chains of one operator *)

Lemma or_side_bare (a b side : Clause) :
  ensure_precedence (BinaryClause OR a b) side = Clause_to_flux side.
Proof.
  apply ensure_precedence_bare. pose proof (precedence_range side). simpl. lia.
Qed.

Lemma and_side_bare (a b side : Clause) :
  precedence side <= 9 ->
  ensure_precedence (BinaryClause AND a b) side = Clause_to_flux side.
Proof.
  intros H. apply ensure_precedence_bare. simpl. lia.
Qed.

Lemma or_text (a b : Clause) :
  Clause_to_flux (BinaryClause OR a b) =
  Clause_to_flux a +:+ " or " +:+ Clause_to_flux b.
Proof.
  rewrite BinaryClause_to_flux, !or_side_bare. reflexivity.
Qed.

Lemma and_text (a b : Clause) :
  precedence a <= 9 -> precedence b <= 9 ->
  Clause_to_flux (BinaryClause AND a b) =
  Clause_to_flux a +:+ " and " +:+ Clause_to_flux b.
Proof.
  intros Ha Hb. rewrite BinaryClause_to_flux, !and_side_bare by assumption.
  reflexivity.
Qed.

(** X8.  The text does not keep the grouping of a chain: [(A | B) | C] and
    [A | (B | C)] render to the same text, [A or B or C], and so do
    [(A & B) & C] and [A & (B & C)] when none of the three is an OR clause
    (precedence number at most 9). *)
Theorem chain_grouping_lost (A B C : Clause) :
  Clause_to_flux (Clause_or (Clause_or A (OfClause B)) (OfClause C)) =
    Clause_to_flux (Clause_or A (OfClause (Clause_or B (OfClause C))))
  /\ Clause_to_flux (Clause_or (Clause_or A (OfClause B)) (OfClause C)) =
     Clause_to_flux A +:+ " or " +:+ Clause_to_flux B +:+ " or " +:+
     Clause_to_flux C
  /\ (precedence A <= 9 -> precedence B <= 9 -> precedence C <= 9 ->
      Clause_to_flux (Clause_and (Clause_and A (OfClause B)) (OfClause C)) =
        Clause_to_flux (Clause_and A (OfClause (Clause_and B (OfClause C))))
      /\ Clause_to_flux (Clause_and (Clause_and A (OfClause B)) (OfClause C)) =
         Clause_to_flux A +:+ " and " +:+ Clause_to_flux B +:+ " and " +:+
         Clause_to_flux C).
Proof.
  unfold Clause_or, Clause_and. cbn [Clause_parse].
  split; [|split].
  - rewrite !or_text. now rewrite !append_assoc.
  - rewrite !or_text. now rewrite !append_assoc.
  - intros HA HB HC.
    assert (E : Clause_to_flux (BinaryClause AND (BinaryClause AND A B) C) =
                Clause_to_flux A +:+ " and " +:+ Clause_to_flux B +:+ " and " +:+
                Clause_to_flux C).
    { rewrite (and_text (BinaryClause AND A B) C) by (simpl; lia).
      rewrite (and_text A B) by assumption. now rewrite !append_assoc. }
    split; [|exact E]. rewrite E.
    rewrite (and_text A (BinaryClause AND B C)) by (simpl; lia).
    now rewrite (and_text B C) by assumption.
Qed.

Lemma chain_grouping_lost_witness :
  let A := LiteralClause true in
  let B := ComparisonClause EQ "topic" (mk_LiteralStringExpression "a") in
  let C := ComparisonClause NE "field" (mk_LiteralStringExpression "b") in
  Clause_to_flux (Clause_and (Clause_and A (OfClause B)) (OfClause C)) =
    Clause_to_flux (Clause_and A (OfClause (Clause_and B (OfClause C))))
  /\ Clause_to_flux (Clause_and (Clause_and A (OfClause B)) (OfClause C)) =
     Clause_to_flux A +:+ " and " +:+ Clause_to_flux B +:+ " and " +:+
     Clause_to_flux C.
Proof.
  cbv zeta.
  apply (proj2 (proj2 (chain_grouping_lost (LiteralClause true)
           (ComparisonClause EQ "topic" (mk_LiteralStringExpression "a"))
           (ComparisonClause NE "field" (mk_LiteralStringExpression "b")))));
    simpl; lia.
Defined.

Lemma and_chain_text {X : Type} (g : X -> Clause) (xs : list X) (acc : Clause) :
  precedence acc <= 9 ->
  Forall (fun x => precedence (g x) <= 9) xs ->
  Clause_to_flux (fold_left (fun a x => BinaryClause AND a (g x)) xs acc) =
  Clause_to_flux acc +:+
  fold_right (fun x rest => " and " +:+ Clause_to_flux (g x) +:+ rest) "" xs
  /\ precedence (fold_left (fun a x => BinaryClause AND a (g x)) xs acc) <= 9.
Proof.
  intros Hacc Hxs. revert acc Hacc.
  induction Hxs as [|x xs Hx _ IH]; intros acc Hacc; cbn [fold_left fold_right].
  - now rewrite append_nil_r.
  - destruct (IH (BinaryClause AND acc (g x))) as [E P]; [simpl; lia|].
    split; [|exact P]. rewrite E, (and_text acc (g x)) by assumption.
    now rewrite !append_assoc.
Qed.

Lemma or_chain_text {X : Type} (g : X -> Clause) (xs : list X) (acc : Clause) :
  Clause_to_flux (fold_left (fun a x => BinaryClause OR a (g x)) xs acc) =
  Clause_to_flux acc +:+
  fold_right (fun x rest => " or " +:+ Clause_to_flux (g x) +:+ rest) "" xs.
Proof.
  revert acc. induction xs as [|x xs IH]; intros acc; cbn [fold_left fold_right].
  - now rewrite append_nil_r.
  - rewrite IH, or_text. now rewrite !append_assoc.
Qed.

Lemma join_map_cons {X : Type} (sep : string) (f : X -> string) (x : X)
    (xs : list X) :
  Py.join sep (map f (x :: xs)) =
  f x +:+ fold_right (fun y rest => sep +:+ f y +:+ rest) "" xs.
Proof.
  cbn [map]. now rewrite join_cons, fold_right_map_text.
Qed.

(** ** [conform] and [any], beyond the empty case *)

Lemma conform_element (row : Row) (item : string * pyval) :
  Field_eq (Row_getitem row (fst item)) (snd item) =
  if is_str (snd item) then Return (item_clause item)
  else Raise (unrecognized (snd item)).
Proof.
  destruct item as [key value]. now destruct value.
Qed.

Lemma reduce_from_items (row : Row) (items : list (string * pyval))
    (acc : Clause) :
  reduce_from (fun acc cur => Clause_and acc (OfClause cur)) acc
    (map (fun item => Field_eq (Row_getitem row (fst item)) (snd item)) items) =
  if forallb (fun item => is_str (snd item)) items
  then Return (fold_left (fun a item => BinaryClause AND a (item_clause item))
                         items acc)
  else Raise (first_unrecognized items).
Proof.
  revert acc. induction items as [|item items IH]; intros acc; [reflexivity|].
  cbn [map reduce_from forallb fold_left first_unrecognized].
  rewrite conform_element.
  destruct (is_str (snd item)); [|reflexivity]. cbn. apply IH.
Qed.

Lemma conform_outcome (value : list (string * pyval)) (row : Row) :
  conform value row =
  match value with
  | [] => Raise "reduce() of empty iterable with no initial value"
  | item :: items =>
      if forallb (fun item => is_str (snd item)) value
      then Return (fold_left (fun a item => BinaryClause AND a (item_clause item))
                             items (item_clause item))
      else Raise (first_unrecognized value)
  end.
Proof.
  destruct value as [|item items]; [reflexivity|].
  unfold conform, reduce. cbn [map forallb first_unrecognized].
  rewrite conform_element.
  destruct (is_str (snd item)); [|reflexivity]. cbn. apply reduce_from_items.
Qed.

Lemma first_unrecognized_app (before : list (string * pyval)) (key : string)
    (v : pyval) (after : list (string * pyval)) :
  forallb (fun item => is_str (snd item)) before = true ->
  is_str v = false ->
  forallb (fun item => is_str (snd item)) (before ++ (key, v) :: after) = false
  /\ first_unrecognized (before ++ (key, v) :: after) = unrecognized v.
Proof.
  intros Hb Hv. induction before as [|item before IH];
    cbn [app forallb first_unrecognized fst snd].
  - now rewrite Hv.
  - cbn [forallb] in Hb. apply andb_prop in Hb. destruct Hb as [Hi Hb].
    rewrite Hi. cbn [andb]. now apply IH.
Qed.

(** X9.  The predicate of [conform] returns a clause exactly when the mapping
    has at least one pair and all its values are strings.  For a mapping
    with a value of another class it raises the error of the unrecognised
    expression, for the first such value in the order of the mapping: the
    message is [didn't recognize expression] followed by the text of that
    value. *)
Theorem conform_returns_iff (value : list (string * pyval)) (row : Row) :
  ((exists clause, conform value row = Return clause) <->
   value <> [] /\ forallb (fun item => is_str (snd item)) value = true)
  /\ (forall (before : list (string * pyval)) key v after,
        value = (before ++ (key, v) :: after)%list ->
        forallb (fun item => is_str (snd item)) before = true ->
        is_str v = false ->
        conform value row =
        Raise ("didn't recognize expression " +:+ py_format v)).
Proof.
  split.
  - rewrite conform_outcome. destruct value as [|item items].
    + split; [intros [c H]; discriminate|]. intros [H _]. congruence.
    + destruct (forallb (fun item => is_str (snd item)) (item :: items)).
      * split; [|eauto]. intros _. split; [discriminate|auto].
      * split; [intros [c H]; discriminate|]. intros [_ H]. discriminate.
  - intros before key v after -> Hb Hv. rewrite conform_outcome.
    destruct (first_unrecognized_app before key v after Hb Hv) as [F U].
    rewrite F, U. destruct before; reflexivity.
Qed.

(** A mapping whose second value is an [int]. *)
Lemma conform_returns_iff_witness :
  conform [("topic", VStr "a"); ("field", VInt 1); ("other", VNone)] mk_Row =
  Raise "didn't recognize expression 1".
Proof.
  apply (proj2 (conform_returns_iff
                  [("topic", VStr "a"); ("field", VInt 1); ("other", VNone)]
                  mk_Row) [("topic", VStr "a")] "field" (VInt 1)
               [("other", VNone)]); reflexivity.
Defined.

(** X10.  For a mapping of at least one pair, with string values, the clause
    of [conform] renders to the comparisons [r["key"] == "value"] of the
    pairs, in the order of the mapping, joined by [ and ], with no
    parentheses; it is not an OR clause. *)
Theorem conform_text (value : list (string * pyval)) (row : Row) :
  value <> [] ->
  forallb (fun item => is_str (snd item)) value = true ->
  exists clause,
    conform value row = Return clause
    /\ Clause_to_flux clause =
       Py.join " and "
         (map (fun item => "r[" +:+ quoted (fst item) +:+ "] == " +:+
                           quoted (str_of (snd item))) value)
    /\ precedence clause <= 9.
Proof.
  intros Hne Hstr. rewrite conform_outcome.
  destruct value as [|item items]; [congruence|]. rewrite Hstr.
  eexists. split; [reflexivity|].
  destruct (and_chain_text item_clause items (item_clause item)) as [E P].
  { simpl. lia. }
  { clear. induction items; constructor; [simpl; lia|assumption]. }
  split; [|exact P]. rewrite E, join_map_cons.
  assert (T : forall i, Clause_to_flux (item_clause i) =
                        "r[" +:+ quoted (fst i) +:+ "] == " +:+ quoted (str_of (snd i))).
  { intros i. cbn. unfold quoted. now rewrite !append_assoc. }
  rewrite T. f_equal. clear. induction items as [|i items IH]; [reflexivity|].
  cbn [fold_right]. rewrite IH. f_equal. f_equal.
  cbn. unfold quoted. now rewrite !append_assoc.
Qed.

Lemma conform_text_witness :
  exists clause,
    conform [("topic", VStr "test_topic"); ("field", VStr "test")] mk_Row =
      Return clause
    /\ Clause_to_flux clause =
       Py.join " and "
         (map (fun item => "r[" +:+ quoted (fst item) +:+ "] == " +:+
                           quoted (str_of (snd item)))
              [("topic", VStr "test_topic"); ("field", VStr "test")])
    /\ precedence clause <= 9.
Proof.
  apply (conform_text [("topic", VStr "test_topic"); ("field", VStr "test")]
           mk_Row); [discriminate|reflexivity].
Defined.

Lemma reduce_from_tests {T : Type} (test : T -> FilterCallback) (row : Row)
    (values : list T) (results : list Clausable) (acc : Clause) :
  Forall2 (fun value result => test value row = Return result) values results ->
  reduce_from (fun acc cur => Clause_or acc (OfClause cur)) acc
    (map (fun value => val ← test value row; mret (Clause_parse val)) values) =
  Return (fold_left (fun a result => BinaryClause OR a (Clause_parse result))
                    results acc).
Proof.
  intros H. revert acc. induction H as [|v r vs rs Hv _ IH]; intros acc;
    [reflexivity|].
  cbn [map reduce_from fold_left]. rewrite Hv. cbn. apply IH.
Qed.

Lemma reduce_from_raise {A : Type} (function : A -> A -> A) (value : A)
    (before : list (result A)) (msg : string) (after : list (result A)) :
  Forall (fun element => exists a, element = Return a) before ->
  reduce_from function value (before ++ Raise msg :: after) = Raise msg.
Proof.
  intros H. revert value. induction H as [|e before [a ->] _ IH]; intros value;
    [reflexivity|].
  cbn [app reduce_from]. cbn. apply IH.
Qed.

(** X11.  When [test] returns for every value, and there is at least one,
    the clause of [any] renders to the texts of the results, in the order of
    the values, joined by [ or ], with no parentheses around any of them.
    When [test] raises for a value and returned for those before it, the
    predicate of [any] raises the same error. *)
Theorem any_text {T : Type} (test : T -> FilterCallback) (row : Row) :
  (forall values results,
     values <> [] ->
     Forall2 (fun value result => test value row = Return result) values results ->
     exists clause,
       any test values row = Return clause
       /\ Clause_to_flux clause =
          Py.join " or "
            (map (fun result => Clause_to_flux (Clause_parse result)) results))
  /\ (forall before value after msg,
        Forall (fun v => exists result, test v row = Return result) before ->
        test value row = Raise msg ->
        any test (before ++ value :: after) row = Raise msg).
Proof.
  split.
  - intros values results Hne H.
    destruct H as [|v r vs rs Hv Hrest]; [congruence|].
    unfold any, reduce. cbn [map]. rewrite Hv.
    cbn [mbind mret result_bind result_ret].
    rewrite (reduce_from_tests test row vs rs _ Hrest).
    eexists. split; [reflexivity|].
    rewrite (or_chain_text Clause_parse rs (Clause_parse r)).
    now rewrite join_cons, fold_right_map_text.
  - intros before value after msg Hb Hv. unfold any, reduce.
    destruct before as [|b before]; cbn [app map].
    + now rewrite Hv.
    + inversion Hb as [|? ? [rb Hrb] Hb']; subst. rewrite Hrb. cbn.
      rewrite map_app. cbn [map]. rewrite Hv.
      change (val ← Raise msg; mret (Clause_parse val)) with (@Raise Clause msg).
      apply reduce_from_raise.
      clear -Hb'. induction Hb' as [|x xs [rx Hx] _ IH]; cbn [map];
        constructor; [|exact IH].
      rewrite Hx. eexists. reflexivity.
Qed.

(** [any(conform, ...)] on the two mappings of the repository's test. *)
Lemma any_text_witness :
  exists clause,
    any (fun value row => OfClause <$> conform value row)
        [[("topic", VStr "test_topic"); ("field", VStr "test")];
         [("topic", VStr "other_test_topic")]] mk_Row = Return clause
    /\ Clause_to_flux clause =
       Py.join " or "
         (map (fun result => Clause_to_flux (Clause_parse result))
            [OfClause
               (BinaryClause AND
                  (ComparisonClause EQ "topic"
                     (mk_LiteralStringExpression "test_topic"))
                  (ComparisonClause EQ "field"
                     (mk_LiteralStringExpression "test")));
             OfClause
               (ComparisonClause EQ "topic"
                  (mk_LiteralStringExpression "other_test_topic"))]).
Proof.
  apply (proj1 (any_text
                  (fun value row => OfClause <$> conform value row) mk_Row)).
  - discriminate.
  - repeat constructor.
Defined.

(** ** More on [pipe] *)

(** X12.  [pipe] fails exactly for a first argument that is no source, partial
    pipe or pipe, and for a source or partial pipe followed by an operation
    that is not a range; its only error is [invalid types], and a pipe as
    first argument is never refused.  It returns a partial pipe exactly for a
    source or partial pipe with no second argument.  When the second
    argument is [None] the operations after it are dropped. *)
Theorem pipe_outcomes (first : PipeFirst) (second : option Operation)
    (ops : list Operation) :
  (pipe first second ops = Raise "invalid types" <->
   pipe_rejects first second = true)
  /\ (forall msg, pipe first second ops <> Raise msg \/ msg = "invalid types")
  /\ ((exists q, pipe first second ops = Return (IsPartialPipe q)) <->
      second = None /\
      ((exists s, first = FirstFrom s) \/ (exists q, first = FirstPartialPipe q)))
  /\ pipe first None ops = pipe first None [].
Proof.
  split; [|split; [|split]].
  - destruct first, second as [[]|]; cbn; split; congruence.
  - intros msg. destruct (decide (msg = "invalid types")) as [->|N];
      [now right|left].
    destruct first, second as [[]|]; cbn; congruence.
  - split.
    + intros [q H]. destruct first, second as [[]|]; cbn in H; try discriminate;
        (split; [reflexivity|]); eauto.
    + intros [-> [[s ->]|[q ->]]]; cbn; eauto.
  - now destruct first.
Qed.

(** X13.  Extending in two calls is extending in one: for every first
    argument and second argument [op], [pipe(pipe(first, op, *a), b, *bs)]
    is [pipe(first, op, *a, b, *bs)], whether the call returns a pipe or is
    refused. *)
Theorem pipe_extend_twice (first : PipeFirst) (op : Operation)
    (a : list Operation) (b : Operation) (bs : list Operation) :
  (x ← pipe first (Some op) a; pipe (PipeResult_first x) (Some b) bs) =
  pipe first (Some op) (a ++ b :: bs).
Proof.
  destruct first as [s|q|p|v]; [destruct op; reflexivity..| |reflexivity].
  cbn. now rewrite <- app_assoc.
Qed.

(** X14.  A partial pipe stands for its source: [pipe(pipe(s), second,
    *ops)] is [pipe(s, second, *ops)] for every second argument and every
    list of operations, and a pipe given to [pipe] alone and then extended is
    the pipe extended. *)
Theorem pipe_through_partial (s : From) (p : Pipe) (second : option Operation)
    (ops : list Operation) :
  (q ← pipe (FirstFrom s) None []; pipe (PipeResult_first q) second ops) =
    pipe (FirstFrom s) second ops
  /\ (x ← pipe (FirstPipe p) None []; pipe (PipeResult_first x) second ops) =
     pipe (FirstPipe p) second ops.
Proof.
  split; [|reflexivity]. now destruct second as [[]|].
Qed.

Lemma fold_right_text_acc (sep : string) (l : list string) (acc : string) :
  fold_right (fun y rest => sep +:+ y +:+ rest) acc l =
  fold_right (fun y rest => sep +:+ y +:+ rest) "" l +:+ acc.
Proof.
  induction l as [|x l IH]; [reflexivity|]. cbn [fold_right].
  now rewrite IH, !append_assoc.
Qed.

Lemma join_app (sep x y : string) (l1 l2 : list string) :
  Py.join sep ((x :: l1) ++ y :: l2) =
  Py.join sep (x :: l1) +:+ sep +:+ Py.join sep (y :: l2).
Proof.
  cbn [app]. rewrite !join_cons, fold_right_app. cbn [fold_right].
  rewrite fold_right_text_acc. now rewrite !append_assoc.
Qed.

(** X15.  Appending operations to a pipe only adds lines at the end of its
    text: the text of [pipe(p, op, *ops)] is the text of [p], the separator,
    and the texts of [op] and [ops] joined by the separator. *)
Theorem pipe_append_text (p : Pipe) (op : Operation) (ops : list Operation) :
  (x ← pipe (FirstPipe p) (Some op) ops; PipeResult_to_flux x) =
  (text ← Pipe_to_flux p;
   mret (text +:+ pipe_separator +:+
         Py.join pipe_separator (map Operation_text (op :: ops)))).
Proof.
  cbn [pipe mbind result_bind PipeResult_to_flux].
  rewrite !Pipe_to_flux_returns. cbn [mbind mret result_bind result_ret].
  cbn [Pipe_initial Pipe_range Pipe_operations]. f_equal.
  rewrite map_app. cbn [map].
  rewrite (app_comm_cons _ _ (Operation_text (RangeLike_operation (Pipe_range p)))).
  rewrite (app_comm_cons _ _ (From_to_flux (Pipe_initial p))).
  apply join_app.
Qed.

(** ** Relative ranges *)

Lemma string_of_uint_one_line (d : Decimal.uint) :
  has_char line_feed (NilEmpty.string_of_uint d) = false.
Proof.
  induction d; cbn [NilEmpty.string_of_uint has_char]; auto.
Qed.

Lemma str_int_one_line (n : Z) : has_char line_feed (Py.str_int n) = false.
Proof.
  unfold Py.str_int, NilZero.string_of_int, NilZero.string_of_uint.
  destruct (Z.to_int n) as [d|d]; destruct d;
    cbn [has_char]; rewrite ?string_of_uint_one_line; reflexivity.
Qed.

Lemma _part_one_line (value : Z) (unit : string) :
  has_char line_feed unit = false ->
  has_char line_feed (_part value unit) = false.
Proof.
  intros H. unfold _part. destruct (negb (value =? 0)); [|reflexivity].
  now rewrite has_char_append, str_int_one_line, H.
Qed.

Lemma _timedelta_to_flux_one_line (every : timedelta) :
  has_char line_feed (_timedelta_to_flux every) = false.
Proof.
  rewrite _timedelta_to_flux_parts, !has_char_append.
  now rewrite !_part_one_line.
Qed.

(** X16.  A duration given to [range] renders as [range(start: <duration>)],
    the duration in the text of [_timedelta_to_flux], whatever is given as
    [stop]; for the zero duration the text is [range(start: )], with nothing
    after the colon. *)
Theorem relative_range_text (td : timedelta) (stop : pyval) :
  (r ← range (VTimedelta td) stop; Operation_to_flux (RangeLike_operation r)) =
    Return ("range(start: " +:+ _timedelta_to_flux td +:+ ")")
  /\ (r ← range (VTimedelta (Timedelta.make 0 0 0 0 0)) stop;
      Operation_to_flux (RangeLike_operation r)) = Return "range(start: )".
Proof.
  split; [|reflexivity].
  cbn [range mbind result_bind RangeLike_operation Operation_to_flux].
  unfold PipedFunction_to_flux.
  cbn [dataclass_fields function RangeOffset_PipedFunction RangeOffset_start
       mapM fst snd _to_flux mbind mret result_bind result_ret format_value
       Py.join].
  f_equal.
  change (_snakecase_to_camelcase "start") with "start".
  change ("range" +:+ "(" +:+ ("start" +:+ ": " +:+ _timedelta_to_flux td) +:+ ")")
    with ("range(start: " +:+ _timedelta_to_flux td +:+ ")").
  apply dedent_id.
  - now rewrite !has_char_append, _timedelta_to_flux_one_line.
  - reflexivity.
  - rewrite <- append_assoc. apply ends_space_append_char.
Qed.

(** ** Durations of whole seconds *)

Lemma make_seconds (n : Z) :
  0 <= n < 86400 -> Timedelta.make 0 n 0 0 0 = mk_timedelta 0 n 0.
Proof.
  intros H. unfold Timedelta.make, Timedelta.of_microseconds,
    Timedelta.us_per_day, Timedelta.us_per_second.
  replace ((((0 * 24 + 0) * 60 + 0) * 60 + n) * 1000000 + 0)
    with (n * 1000000) by ring.
  rewrite (Z.mod_small (n * 1000000) (86400 * 1000000)) by lia.
  rewrite (Z.div_small (n * 1000000) (86400 * 1000000)) by lia.
  rewrite Z.div_mul by lia. rewrite Z.mod_mul by lia. reflexivity.
Qed.

Lemma make_negative_seconds (n : Z) :
  0 < n < 86400 ->
  Timedelta.make 0 (- n) 0 0 0 = mk_timedelta (-1) (86400 - n) 0.
Proof.
  intros H. unfold Timedelta.make, Timedelta.of_microseconds,
    Timedelta.us_per_day, Timedelta.us_per_second.
  replace ((((0 * 24 + 0) * 60 + 0) * 60 + - n) * 1000000 + 0)
    with (- n * 1000000) by ring.
  assert (D : - n * 1000000 / (86400 * 1000000) = -1).
  { symmetry. apply (Z.div_unique _ _ _ ((86400 - n) * 1000000)); lia. }
  assert (M : (- n * 1000000) mod (86400 * 1000000) = (86400 - n) * 1000000).
  { symmetry. apply (Z.mod_unique _ _ (-1)); lia. }
  rewrite D, M. rewrite Z.div_mul by lia. rewrite Z.mod_mul by lia.
  reflexivity.
Qed.

(** X17.  With the normalisation of [timedelta] (seconds from 0 to 86399, the
    sign on the days), a duration of [n] seconds, under a day, renders as
    [<n>s], and a duration of minus [n] seconds renders as minus one day and
    the seconds that remain: [-1d<86400 - n>s]. *)
Theorem seconds_under_a_day_text (n : Z) :
  0 < n < 86400 ->
  _timedelta_to_flux (Timedelta.make 0 n 0 0 0) = Py.str_int n +:+ "s"
  /\ _timedelta_to_flux (Timedelta.make 0 (- n) 0 0 0) =
     "-1d" +:+ Py.str_int (86400 - n) +:+ "s".
Proof.
  intros H. rewrite make_seconds, make_negative_seconds by lia.
  rewrite !_timedelta_to_flux_parts. cbn [days seconds microseconds].
  rewrite !_part_zero, (_part_nonzero n), (_part_nonzero (86400 - n)) by lia.
  rewrite !append_nil_r. split; reflexivity.
Qed.

(** Five minutes, and five minutes back. *)
Lemma seconds_under_a_day_text_witness :
  _timedelta_to_flux (Timedelta.make 0 0 0 5 0) = "300s"
  /\ _timedelta_to_flux (Timedelta.make 0 0 0 (-5) 0) = "-1d86100s".
Proof.
  apply (seconds_under_a_day_text 300). lia.
Defined.

(** On the example store, [pipe(p, last, range)] for the pipe at 4. *)
Lemma Store_pipe_refines_witness :
  exists l,
    (Store.pipe example_store 4%positive (Some 6%positive) [2%positive]).1 =
      Return l
    /\ Store.load_result
         (Store.pipe example_store 4%positive (Some 6%positive) [2%positive]).2 l =
       Some (IsPipe
               (mk_Pipe (from_bucket "bucket")
                  (IsRangeOffset (mk_RangeOffset
                     (VTimedelta (Timedelta.make 0 0 0 1 0))))
                  [OpLast last;
                   OpRangeOffset (mk_RangeOffset
                     (VTimedelta (Timedelta.make 0 0 0 1 0)))])).
Proof.
  assert (H1 : Store.load_first example_store 4%positive =
               Some (FirstPipe
                       (mk_Pipe (from_bucket "bucket")
                          (IsRangeOffset (mk_RangeOffset
                             (VTimedelta (Timedelta.make 0 0 0 1 0)))) [])))
    by (vm_compute; reflexivity).
  assert (H2 : Store.load_second example_store (Some 6%positive) =
               Some (Some (OpLast last))) by (vm_compute; reflexivity).
  assert (H3 : mapM (Store.load_operation example_store) [2%positive] =
               Some [OpRangeOffset (mk_RangeOffset
                       (VTimedelta (Timedelta.make 0 0 0 1 0)))])
    by (vm_compute; reflexivity).
  exact (Store_pipe_refines _ _ _ _ _ _ _ H1 H2 H3).
Defined.
